(** * CardGrabber: the certificate lookup script, embedded and verified

    A shallow embedding of [script.py]: the per-certificate worker with its
    retry loop ([fetch_certificate_data]), the diagnostic fallback
    ([save_debug_snapshot]), the paced batch ([process_certificate_batch]),
    the driver ([main]) and the top-level exit handling.

    The browser, the file system, the clock and the event loop are the
    outside world.  Every call into it is recorded as an [event] and its
    result is read from an environment record, so that each function of
    the script is a total, executable Rocq function of its arguments and
    of the environment. *)

From Stdlib Require Import List ZArith Bool String Ascii Lia SpecFloat.
Import ListNotations.

Local Open Scope Z_scope.

(* ================================================================== *)
(** * Python values *)

(** A Python [str] is a sequence of Unicode code points. *)
Definition char := N.
Definition str := list char.

(** A Python [float] is an IEEE 754 binary64 number. *)
Definition float : Type := spec_float.

Definition char_of_ascii (a : ascii) : char := N_of_ascii a.

Fixpoint lit (s : string) : str :=
  match s with
  | EmptyString => []
  | String a s' => char_of_ascii a :: lit s'
  end.

Module Py.

(** [str.isspace] on one code point: the table of CPython's
    [_PyUnicode_IsWhitespace], which [split()] and [strip()] consult. *)
Definition isspace (c : char) : bool :=
  ((9 <=? c) && (c <=? 13))%N
  || ((28 <=? c) && (c <=? 32))%N
  || (c =? 133)%N || (c =? 160)%N || (c =? 5760)%N
  || ((8192 <=? c) && (c <=? 8202))%N
  || (c =? 8232)%N || (c =? 8233)%N || (c =? 8239)%N
  || (c =? 8287)%N || (c =? 12288)%N.

Definition space : char := 32%N.

(** The truth value of a sequence. *)
Definition nonempty {A} (s : list A) : bool :=
  match s with [] => false | _ :: _ => true end.

(** [s.split()]: the maximal runs of non-whitespace, left to right.  [cur]
    is the run being scanned, most recent character first. *)
Fixpoint split_from (cur : str) (s : str) : list str :=
  match s with
  | [] => if nonempty cur then [rev cur] else []
  | c :: s' =>
      if isspace c
      then (if nonempty cur then rev cur :: split_from [] s'
            else split_from [] s')
      else split_from (c :: cur) s'
  end.

Definition split (s : str) : list str := split_from [] s.

(** [sep.join(parts)] *)
Fixpoint join (sep : str) (parts : list str) : str :=
  match parts with
  | [] => []
  | [p] => p
  | p :: ps => p ++ sep ++ join sep ps
  end.

Fixpoint lstrip (s : str) : str :=
  match s with
  | [] => []
  | c :: s' => if isspace c then lstrip s' else s
  end.

Definition rstrip (s : str) : str := rev (lstrip (rev s)).

(** [s.strip()] *)
Definition strip (s : str) : str := rstrip (lstrip s).

(** [os.path.join(a, b)] on a POSIX system. *)
Definition path_join (a b : str) : str :=
  match b with
  | 47%N :: _ => b
  | _ =>
      match rev a with
      | [] => b
      | 47%N :: _ => a ++ b
      | _ => a ++ 47%N :: b
      end
  end.

(** The binary64 number nearest to [m * 2 ^ e]. *)
Definition float_of (m e : Z) : float := binary_normalize 53 1024 m e false.

(** [float(k)] for an [int] [k], rounded to nearest even; [None] is the
    [OverflowError] of an [int] too large for a [float]. *)
Definition float_of_int (k : Z) : option float :=
  match binary_normalize 53 1024 k 0 false with
  | S754_infinity _ => None
  | x => Some x
  end.

(** [x * k] for a [float] [x] and an [int] [k]: the [int] is converted,
    then the two binary64 numbers are multiplied. *)
Definition times (x : float) (k : Z) : option float :=
  option_map (SFmul 53 1024 x) (float_of_int k).

(** [x < y] on [float]s; false when one of them is NaN. *)
Definition lt (x y : float) : bool := SFltb x y.

(** The length of [range(start, stop, step)] for a non-zero step. *)
Definition range_len (start stop step : Z) : nat :=
  if 0 <? step
  then (if start <? stop then Z.to_nat ((stop - start - 1) / step + 1) else 0%nat)
  else (if stop <? start then Z.to_nat ((start - stop - 1) / (- step) + 1) else 0%nat).

(** [range(start, stop, step)] as the list it iterates over; [None] is the
    [ValueError] raised for a zero step. *)
Definition range (start stop step : Z) : option (list Z) :=
  if step =? 0 then None
  else Some (map (fun k => start + Z.of_nat k * step)
                 (seq 0 (range_len start stop step))).

(** The bound of a slice clamped as [l[lo:hi]] does. *)
Definition clamp (len k : Z) : Z :=
  if k <? 0 then Z.max 0 (k + len) else Z.min k len.

(** [l[lo:hi]] *)
Definition slice {A} (l : list A) (lo hi : Z) : list A :=
  let len := Z.of_nat (List.length l) in
  let lo' := clamp len lo in
  let hi' := clamp len hi in
  firstn (Z.to_nat (hi' - lo')) (skipn (Z.to_nat lo') l).

End Py.

(* ================================================================== *)
(** * Exceptions, events and the effect monad *)

(** The exception classes the script tells apart.  The first five derive
    from [Exception]; the last three derive from [BaseException] only, so
    an [except Exception] clause lets them through. *)
Inductive exn : Type :=
| PlaywrightTimeoutError
| AttributeError
| ValueError
| OverflowError
| OtherError (msg : string)
| KeyboardInterrupt
| CancelledError
| SystemExit (code : Z).

Definition is_Exception (e : exn) : bool :=
  match e with
  | PlaywrightTimeoutError | AttributeError | ValueError | OverflowError
  | OtherError _ => true
  | KeyboardInterrupt | CancelledError | SystemExit _ => false
  end.

Inductive outcome (A : Type) : Type :=
| Return (a : A)
| Raise (e : exn).
Arguments Return {A} a.
Arguments Raise {A} e.

(** What [fetch_certificate_data] returns: the annotation is
    [tuple[str, str, str] | None]. *)
Definition result : Type := str * str * str.

Definition result_id (r : result) : str := fst (fst r).

(** The page an operation acts on: the one opened for a numbered attempt or
    the one opened by the snapshot routine. *)
Inductive page : Type :=
| AttemptPage (attempt : Z)
| SnapshotPage.

(** The four call sites of [asyncio.sleep]. *)
Inductive sleep_site : Type := Backoff | Settle | SnapshotSettle | Pace.

(** The argument of [asyncio.sleep]: an [int] or a [float]. *)
Inductive seconds : Type :=
| IntSeconds (n : Z)
| FloatSeconds (x : float).

Inductive level : Type := DEBUG | INFO | WARNING | ERROR.

Inductive log_record : Type :=
| LogRetrying (id : str) (attempt total : Z)
| LogFetching (id : str)
| LogFetched (id name grade : str)
| LogTimeout (id : str) (attempt : Z)
| LogFetchError (id : str) (e : exn)
| LogSnapshotSaved (id : str)
| LogSnapshotFailed (id : str) (e : exn)
| LogInputNotFound (path : str)
| LogReadFailed (e : exn)
| LogNoIds
| LogLoaded (n : nat)
| LogSaved (path : str)
| LogWriteFailed (e : exn)
| LogInterrupted
| LogFatal (e : exn).

Inductive event : Type :=
| EvLog (lv : level) (r : log_record)
| EvSleep (site : sleep_site) (d : seconds)
| EvNewPage (p : page)
| EvStealth (p : page)
| EvGoto (p : page) (url : str) (timeout : Z)
| EvWaitForSelector (p : page) (xpath : str)
| EvTextContent (p : page) (xpath : str)
| EvContent (p : page)
| EvClose (p : page)
| EvMakedirs (dir : str)
| EvWriteFile (path content : str)
| EvCreateTask (index : nat) (id : str)
| EvTask (index : nat) (e : event)
| EvPathExists (path : str)
| EvReadInput (path : str)
| EvLaunch
| EvBrowserClose
| EvOpenReport (path : str)
| EvWriteRows (header : list str) (rows : list (option result)).

Definition trace : Type := list event.

(** A computation emits events and either returns or raises. *)
Definition M (A : Type) : Type := trace * outcome A.

Definition ret {A} (a : A) : M A := ([], Return a).

Definition raise {A} (e : exn) : M A := ([], Raise e).

Definition bind {A B} (m : M A) (f : A -> M B) : M B :=
  match m with
  | (t1, Return a) => let '(t2, r) := f a in (t1 ++ t2, r)
  | (t1, Raise e) => (t1, Raise e)
  end.

Notation "x <- c1 ;; c2" := (bind c1 (fun x => c2))
  (at level 61, c1 at next level, right associativity).
Notation "c1 ;; c2" := (bind c1 (fun _ => c2))
  (at level 61, right associativity).

(** One call into the outside world: the event, then the result the
    environment gives. *)
Definition call {A} (ev : event) (r : outcome A) : M A := ([ev], r).

Definition perform (ev : event) (r : option exn) : M unit :=
  call ev (match r with None => Return tt | Some e => Raise e end).

Definition log (lv : level) (r : log_record) : M unit := ([EvLog lv r], Return tt).

(** [try: body / except ...: handler / finally: fin].  [handler e] is [None]
    when no [except] clause matches [e].  The [finally] block always runs; an
    exception it raises replaces whatever the rest had produced. *)
Definition try_except_finally {A}
    (body : M A) (handler : exn -> option (M A)) (fin : M unit) : M A :=
  let '(t1, r1) := body in
  let '(t2, r2) :=
    match r1 with
    | Return a => ([], Return a)
    | Raise e => match handler e with
                 | Some h => h
                 | None => ([], Raise e)
                 end
    end in
  let '(t3, r3) := fin in
  (t1 ++ t2 ++ t3,
   match r3 with
   | Return _ => r2
   | Raise e' => Raise e'
   end).

(** How one pass through a loop body ends: it falls through to the next
    iteration, or it executes [return v]. *)
Inductive flow (A : Type) : Type :=
| Next
| Returned (v : A).
Arguments Next {A}.
Arguments Returned {A} v.

(** [for x in xs: body x], followed by [after] when no iteration returned. *)
Fixpoint for_each {X A} (xs : list X) (body : X -> M (flow A)) (after : M A) : M A :=
  match xs with
  | [] => after
  | x :: xs' =>
      f <- body x ;;
      match f with
      | Returned v => ret v
      | Next => for_each xs' body after
      end
  end.

(* ================================================================== *)
(** * The environment *)

(** What the browser does to the page of one attempt, call by call. *)
Record page_env : Type := {
  new_page_r : option exn;
  stealth_r : option exn;
  backoff_sleep_r : option exn;
  goto_r : option exn;
  settle_sleep_r : option exn;
  wait_for_selector_r : option exn;
  name_text_r : outcome (option str);
  grade_text_r : outcome (option str);
  close_r : option exn;
  close_finally_r : option exn
}.

(** What the outside world does during one run of the snapshot routine. *)
Record snapshot_env : Type := {
  snap_new_page_r : option exn;
  snap_stealth_r : option exn;
  snap_makedirs_r : option exn;
  snap_goto_r : option exn;
  snap_sleep_r : option exn;
  snap_content_r : outcome str;
  snap_write_r : option exn;
  snap_close_r : option exn
}.

(** The outside world as one certificate sees it. *)
Record item_env : Type := {
  attempts : Z -> page_env;
  snapshot : snapshot_env
}.

(* ================================================================== *)
(** * The script *)

Definition DEFAULT_INPUT_FILE : str := lit "certs.txt".
Definition DEFAULT_CONCURRENCY : Z := 5.
Definition DEFAULT_TIMEOUT : Z := 15000.
Definition DEFAULT_RETRY_COUNT : Z := 3.
Definition DEFAULT_RETRY_DELAY : float := Py.float_of 2 0.
Definition DEFAULT_RATE_LIMIT : float := Py.float_of 1 0.

Definition cert_url (certificate_id : str) : str :=
  lit "https://acegrading.com/cert/" ++ certificate_id.

Definition NAME_XPATH : str := lit "//h2[contains(@class, 'sm:text-2xl')]".
Definition GRADE_XPATH : str :=
  lit "//div[contains(@class, 'w-3/4') and contains(@class, 'bg-gold')]".

Definition SENTINEL : str := lit "Error".

Definition create_stealth_page (p : page) (new_r stealth_r : option exn) : M unit :=
  perform (EvNewPage p) new_r ;;
  perform (EvStealth p) stealth_r.

(** The text a locator yields, or the [AttributeError] of calling a [str]
    method on [None]. *)
Definition text_of (t : option str) : M str :=
  match t with
  | Some s => ret s
  | None => raise AttributeError
  end.

(** [retry_delay * attempt], which raises when the attempt number does not
    fit a [float]. *)
Definition backoff_delay (retry_delay : float) (attempt : Z) : M float :=
  match Py.times retry_delay attempt with
  | Some d => ret d
  | None => raise OverflowError
  end.

(** The [try] block of one attempt. *)
Definition attempt_body (pe : page_env) (certificate_id : str)
    (timeout retry_count : Z) (retry_delay : float) (attempt : Z)
  : M (flow (option result)) :=
  let p := AttemptPage attempt in
  (if 1 <? attempt
   then log INFO (LogRetrying certificate_id attempt (retry_count + 1)) ;;
        d <- backoff_delay retry_delay attempt ;;
        perform (EvSleep Backoff (FloatSeconds d)) (backoff_sleep_r pe)
   else ret tt) ;;
  log DEBUG (LogFetching certificate_id) ;;
  perform (EvGoto p (cert_url certificate_id) timeout) (goto_r pe) ;;
  perform (EvSleep Settle (FloatSeconds (Py.float_of 3 (-1)))) (settle_sleep_r pe) ;;
  perform (EvWaitForSelector p NAME_XPATH) (wait_for_selector_r pe) ;;
  card_name_raw <- call (EvTextContent p NAME_XPATH) (name_text_r pe) ;;
  raw_name <- text_of card_name_raw ;;
  let card_name := Py.join [Py.space] (Py.split raw_name) in
  grade_raw <- call (EvTextContent p GRADE_XPATH) (grade_text_r pe) ;;
  raw_grade <- text_of grade_raw ;;
  let grade := Py.strip raw_grade in
  log DEBUG (LogFetched certificate_id card_name grade) ;;
  perform (EvClose p) (close_r pe) ;;
  ret (Returned (Some (certificate_id, card_name, grade))).

(** The two [except] clauses of an attempt, in order. *)
Definition attempt_handler (certificate_id : str) (attempt : Z) (e : exn)
  : option (M (flow (option result))) :=
  match e with
  | PlaywrightTimeoutError =>
      Some (log WARNING (LogTimeout certificate_id attempt) ;; ret Next)
  | _ =>
      if is_Exception e
      then Some (log ERROR (LogFetchError certificate_id e) ;; ret Next)
      else None
  end.

(** One iteration of the retry loop. *)
Definition fetch_attempt (pe : page_env) (certificate_id : str)
    (timeout retry_count : Z) (retry_delay : float) (attempt : Z)
  : M (flow (option result)) :=
  create_stealth_page (AttemptPage attempt) (new_page_r pe) (stealth_r pe) ;;
  try_except_finally
    (attempt_body pe certificate_id timeout retry_count retry_delay attempt)
    (attempt_handler certificate_id attempt)
    (perform (EvClose (AttemptPage attempt)) (close_finally_r pe)).

Definition DEBUG_DIR : str := lit "debug_snapshots".

Definition snapshot_path (certificate_id : str) : str :=
  Py.path_join DEBUG_DIR (certificate_id ++ lit ".html").

Definition save_debug_snapshot (se : snapshot_env) (certificate_id : str)
    (timeout : Z) : M unit :=
  create_stealth_page SnapshotPage (snap_new_page_r se) (snap_stealth_r se) ;;
  perform (EvMakedirs DEBUG_DIR) (snap_makedirs_r se) ;;
  let file_path := snapshot_path certificate_id in
  try_except_finally
    (perform (EvGoto SnapshotPage (cert_url certificate_id) timeout) (snap_goto_r se) ;;
     perform (EvSleep SnapshotSettle (IntSeconds 2)) (snap_sleep_r se) ;;
     content <- call (EvContent SnapshotPage) (snap_content_r se) ;;
     perform (EvWriteFile file_path content) (snap_write_r se) ;;
     log INFO (LogSnapshotSaved certificate_id))
    (fun e =>
       if is_Exception e
       then Some (log ERROR (LogSnapshotFailed certificate_id e))
       else None)
    (perform (EvClose SnapshotPage) (snap_close_r se)).

(** The attempt numbers [range(1, retry_count + 2)]. *)
Definition attempt_numbers (retry_count : Z) : list Z :=
  match Py.range 1 (retry_count + 2) 1 with
  | Some l => l
  | None => []
  end.

Definition fetch_certificate_data (env : item_env) (certificate_id : str)
    (timeout retry_count : Z) (retry_delay : float) : M (option result) :=
  for_each (attempt_numbers retry_count)
    (fun attempt =>
       fetch_attempt (attempts env attempt) certificate_id
                     timeout retry_count retry_delay attempt)
    (save_debug_snapshot (snapshot env) certificate_id timeout ;;
     ret (Some (certificate_id, SENTINEL, SENTINEL))).

(** What the outside world does during one window: the pacing sleeps, by
    local index, each item's own environment and, of the tasks that raise,
    given by their indices, the one that raises first.  A task that is
    cancelled because the run is abandoned meets [CancelledError] in its own
    environment, at the call it was waiting for. *)
Record batch_env : Type := {
  pace_sleep_r : nat -> option exn;
  item : nat -> item_env;
  first_raised : list nat -> nat
}.

Definition enumerate {A} (l : list A) : list (nat * A) :=
  combine (seq 0 (List.length l)) l.

(** [rate_limit > 0]; false for NaN. *)
Definition positive (x : float) : bool := Py.lt (S754_zero false) x.

(** The loop of [process_certificate_batch]: it sleeps, then appends the
    coroutine object of the item to [tasks].  A coroutine object is the
    worker's computation, not yet run. *)
Fixpoint create_tasks (be : batch_env) (items : list (nat * str))
    (timeout retry_count : Z) (retry_delay rate_limit : float)
    (tasks : list (nat * M (option result)))
  : M (list (nat * M (option result))) :=
  match items with
  | [] => ret tasks
  | (index, certificate_id) :: rest =>
      (if (0 <? index)%nat && positive rate_limit
       then perform (EvSleep Pace (FloatSeconds rate_limit)) (pace_sleep_r be index)
       else ret tt) ;;
      call (EvCreateTask index certificate_id) (Return tt) ;;
      create_tasks be rest timeout retry_count retry_delay rate_limit
        (tasks ++ [(index,
                    fetch_certificate_data (item be index) certificate_id
                                           timeout retry_count retry_delay)])
  end.

(** The events of the tasks, each under the index of its task. *)
Definition task_events {A} (tasks : list (nat * M A)) : trace :=
  flat_map (fun task => map (EvTask (fst task)) (fst (snd task))) tasks.

(** The tasks that raise, with what they raise. *)
Fixpoint raised {A} (tasks : list (nat * M A)) : list (nat * exn) :=
  match tasks with
  | [] => []
  | (index, (_, Raise e)) :: rest => (index, e) :: raised rest
  | (_, (_, Return _)) :: rest => raised rest
  end.

(** The values of the tasks that return, in the order of the tasks. *)
Fixpoint returned {A} (tasks : list (nat * M A)) : list A :=
  match tasks with
  | [] => []
  | (_, (_, Return a)) :: rest => a :: returned rest
  | (_, (_, Raise _)) :: rest => returned rest
  end.

(** [asyncio.gather] over [tasks]: every task runs; when all return, the
    values come back in the order of [tasks]; when some raise, the exception
    of the one that raises first is raised.  The events of a task are
    listed under its index, task after task: how the event loop interleaves
    them is not modelled.  A task that is still running when the window
    fails runs on until the run is abandoned and it is cancelled: its
    environment then gives [CancelledError] at the call it was waiting for,
    so that its events are those up to that call and those of its
    unwinding. *)
Definition gather {A} (first : list nat -> nat) (tasks : list (nat * M A))
  : M (list A) :=
  (task_events tasks,
   match raised tasks with
   | [] => Return (returned tasks)
   | (index, e) :: rest =>
       let chosen := first (map fst (raised tasks)) in
       match find (fun r => (fst r =? chosen)%nat) (raised tasks) with
       | Some r => Raise (snd r)
       | None => Raise e
       end
   end).

Definition process_certificate_batch (be : batch_env) (certificate_ids : list str)
    (timeout retry_count : Z) (retry_delay rate_limit : float)
  : M (list (option result)) :=
  tasks <- create_tasks be (enumerate certificate_ids)
             timeout retry_count retry_delay rate_limit [] ;;
  gather (first_raised be) tasks.

(** The parsed command line. *)
Record args : Type := {
  input : str;
  output : option str;
  concurrency : Z;
  timeout : Z;
  retries : Z;
  delay : float;
  rate_limit : float;
  verbose : bool
}.

(** The outside world of a whole run.  [window_env] is keyed by the offset
    at which a window starts.  [sigint] tells that the user interrupted the
    run and that the runner of [asyncio.run] answered by cancelling the main
    task (Python 3.11 and later). *)
Record world : Type := {
  now : str;
  sigint : bool;
  input_exists : bool;
  input_lines : outcome (list str);
  launch_r : option exn;
  window_env : Z -> batch_env;
  browser_close_r : option exn;
  open_report_r : option exn;
  write_rows_r : option exn
}.

(** [try: body / except ...: handler] *)
Definition try_except {A} (body : M A) (handler : exn -> option (M A)) : M A :=
  try_except_finally body handler (ret tt).

(** [args.output or f"cert_lookup_results_{now}.csv"] *)
Definition output_file (w : world) (a : args) : str :=
  match output a with
  | Some (c :: s) => c :: s
  | _ => lit "cert_lookup_results_" ++ now w ++ lit ".csv"
  end.

(** [[line.strip() for line in file if line.strip()]] *)
Definition usable_ids (lines : list str) : list str :=
  map Py.strip (filter (fun line => Py.nonempty (Py.strip line)) lines).

Definition REPORT_HEADER : list str :=
  [lit "Certificate ID"; lit "Card Name"; lit "Grade"].

(** The window loop of [main], over the offsets [range(0, len, concurrency)]. *)
Fixpoint run_windows (w : world) (a : args) (certificate_ids : list str)
    (offsets : list Z) (all_results : list (option result))
  : M (list (option result)) :=
  match offsets with
  | [] => ret all_results
  | i :: rest =>
      let batch := Py.slice certificate_ids i (i + concurrency a) in
      results <- process_certificate_batch (window_env w i) batch
                   (timeout a) (retries a) (delay a) (rate_limit a) ;;
      run_windows w a certificate_ids rest (all_results ++ results)
  end.

(** Everything between the browser launch and the browser close. *)
Definition fetch_phase (w : world) (a : args) (certificate_ids : list str)
  : M (list (option result)) :=
  perform EvLaunch (launch_r w) ;;
  all_results <-
    match Py.range 0 (Z.of_nat (List.length certificate_ids)) (concurrency a) with
    | None => raise ValueError
    | Some offsets => run_windows w a certificate_ids offsets []
    end ;;
  perform EvBrowserClose (browser_close_r w) ;;
  ret all_results.

(** The guarded reading of the input file. *)
Definition read_ids (w : world) (a : args) : M (list str) :=
  try_except
    (lines <- call (EvReadInput (input a)) (input_lines w) ;;
     ret (usable_ids lines))
    (fun e =>
       if is_Exception e
       then Some (log ERROR (LogReadFailed e) ;; raise (SystemExit 1))
       else None).

(** The guarded writing of the report. *)
Definition write_report (w : world) (a : args)
    (all_results : list (option result)) : M unit :=
  try_except
    (perform (EvOpenReport (output_file w a)) (open_report_r w) ;;
     perform (EvWriteRows REPORT_HEADER all_results) (write_rows_r w) ;;
     log INFO (LogSaved (output_file w a)))
    (fun e =>
       if is_Exception e
       then Some (log ERROR (LogWriteFailed e) ;; raise (SystemExit 1))
       else None).

(** [main], from the parsed arguments on.  The logger level and the
    progress bar only change what is displayed and are left out. *)
Definition main (w : world) (a : args) : M unit :=
  found <- call (EvPathExists (input a)) (Return (input_exists w)) ;;
  if negb found
  then log ERROR (LogInputNotFound (input a)) ;; raise (SystemExit 1)
  else
    certificate_ids <- read_ids w a ;;
    if negb (Py.nonempty certificate_ids)
    then log ERROR LogNoIds ;; raise (SystemExit 1)
    else
      log INFO (LogLoaded (List.length certificate_ids)) ;;
      all_results <- fetch_phase w a certificate_ids ;;
      write_report w a all_results.

(** The exit status of the process for how the program ended, on a POSIX
    system: the interpreter hands the code of a [SystemExit] to [exit] as a C
    [int] ([-1] when it does not fit a C [long]), and the status keeps its
    low 8 bits; any other exception that is not caught gives status 1. *)
Definition exit_status (r : outcome unit) : Z :=
  match r with
  | Return _ => 0
  | Raise (SystemExit code) =>
      if (- 2 ^ 63 <=? code) && (code <? 2 ^ 63) then code mod 256 else 255
  | Raise _ => 1
  end.

(** [asyncio.run(m)]: what [m] raises goes through, except that a main
    task that ends cancelled after the runner's interrupt handler cancelled
    it makes the runner raise [KeyboardInterrupt]. *)
Definition asyncio_run (w : world) (m : M unit) : M unit :=
  match m with
  | (t, Raise CancelledError) =>
      (t, Raise (if sigint w then KeyboardInterrupt else CancelledError))
  | _ => m
  end.

(** The [__main__] block. *)
Definition script (w : world) (a : args) : M unit :=
  try_except (asyncio_run w (main w a))
    (fun e =>
       match e with
       | KeyboardInterrupt => Some (log INFO LogInterrupted ;; raise (SystemExit 0))
       | _ =>
           if is_Exception e
           then Some (log ERROR (LogFatal e) ;; raise (SystemExit 1))
           else None
       end).

Definition run (w : world) (a : args) : trace * Z :=
  let '(t, r) := script w a in (t, exit_status r).

(* ================================================================== *)
(** * Observations on traces and environments *)

(** The attempt numbers for which a page was opened, in order. *)
Definition attempts_made (t : trace) : list Z :=
  flat_map (fun e => match e with
                     | EvNewPage (AttemptPage k) => [k]
                     | _ => []
                     end) t.

(** The durations of the backoff sleeps, in order. *)
Definition backoff_delays (t : trace) : list float :=
  flat_map (fun e => match e with
                     | EvSleep Backoff (FloatSeconds d) => [d]
                     | _ => []
                     end) t.


(** How many times the snapshot routine was entered: it opens its page
    first. *)
Definition snapshots_begun (t : trace) : nat :=
  List.length (filter (fun e => match e with
                                | EvNewPage SnapshotPage => true
                                | _ => false
                                end) t).

(** The navigations of the snapshot routine: address and timeout. *)
Definition snapshot_gotos (t : trace) : list (str * Z) :=
  flat_map (fun e => match e with
                     | EvGoto SnapshotPage url tmo => [(url, tmo)]
                     | _ => []
                     end) t.

(** Events of fetch work: the browser, its pages, the tasks, the sleeps and
    the snapshot files. *)
Definition is_fetch_work (e : event) : bool :=
  match e with
  | EvLog _ _ | EvPathExists _ | EvReadInput _
  | EvOpenReport _ | EvWriteRows _ _ => false
  | _ => true
  end.

(** Events that touch the report file. *)
Definition is_report (e : event) : bool :=
  match e with
  | EvOpenReport _ | EvWriteRows _ _ => true
  | _ => false
  end.

(** What a trace shows of the dispatch loop of a window: its pacing sleeps
    and the creation of its tasks. *)
Definition dispatch_view (t : trace) : trace :=
  filter (fun e => match e with
                   | EvSleep Pace _ | EvCreateTask _ _ => true
                   | _ => false
                   end) t.

(** The identifier a returned value carries, if it carries one. *)
Definition value_id (v : option result) : option str := option_map result_id v.

(** Nothing in the trace touches the report file. *)
Definition no_report (t : trace) : Prop :=
  forallb (fun e => negb (is_report e)) t = true.

(** Nothing in the trace is fetch work. *)
Definition no_fetch_work (t : trace) : Prop :=
  forallb (fun e => negb (is_fetch_work e)) t = true.


(** An iteration of the retry loop fails when it ends without returning and
    without raising: the loop goes on. *)
Definition attempt_fails (pe : page_env) (certificate_id : str)
    (timeout retry_count : Z) (retry_delay : float) (attempt : Z) : Prop :=
  snd (fetch_attempt pe certificate_id timeout retry_count retry_delay attempt)
  = Return Next.

(** The fetch of a certificate fails on every attempt of the loop. *)
Definition always_fails (env : item_env) (certificate_id : str)
    (timeout retry_count : Z) (retry_delay : float) : Prop :=
  forall k, In k (attempt_numbers retry_count) ->
    attempt_fails (attempts env k) certificate_id timeout retry_count retry_delay k.

(** The snapshot routine comes back to its caller. *)
Definition snapshot_returns (se : snapshot_env) (certificate_id : str)
    (timeout : Z) : Prop :=
  snd (save_debug_snapshot se certificate_id timeout) = Return tt.

Definition succeeds (r : option exn) : bool :=
  match r with None => true | Some _ => false end.

(** A call whose failure, if any, derives from [Exception]. *)
Definition tame (r : option exn) : bool :=
  match r with None => true | Some e => is_Exception e end.

Definition tame_out {A} (r : outcome A) : bool :=
  match r with Return _ => true | Raise e => is_Exception e end.

(** The calls outside the [try] statement of an attempt succeed, and the
    calls inside its [try] block fail with an [Exception] if at all. *)
Definition page_guarded (pe : page_env) : bool :=
  succeeds (new_page_r pe) && succeeds (stealth_r pe)
  && succeeds (close_finally_r pe)
  && tame (backoff_sleep_r pe) && tame (goto_r pe) && tame (settle_sleep_r pe)
  && tame (wait_for_selector_r pe)
  && tame_out (name_text_r pe) && tame_out (grade_text_r pe)
  && tame (close_r pe).

(** The same for the snapshot routine. *)
Definition snapshot_guarded (se : snapshot_env) : bool :=
  succeeds (snap_new_page_r se) && succeeds (snap_stealth_r se)
  && succeeds (snap_makedirs_r se) && succeeds (snap_close_r se)
  && tame (snap_goto_r se) && tame (snap_sleep_r se)
  && tame_out (snap_content_r se) && tame (snap_write_r se).

Definition item_guarded (env : item_env) (retry_count : Z) : Prop :=
  (forall k, In k (attempt_numbers retry_count) ->
             page_guarded (attempts env k) = true)
  /\ snapshot_guarded (snapshot env) = true.

(** The fetch phase meets no failure outside the guarded regions. *)
Definition world_guarded (w : world) (a : args) : Prop :=
  launch_r w = None /\ browser_close_r w = None
  /\ forall i, (forall j, pace_sleep_r (window_env w i) j = None)
               /\ forall j, item_guarded (item (window_env w i) j) (retries a).

(** A computation that raises nothing an [except Exception] clause would
    let through. *)
Definition contained {A} (m : M A) : Prop :=
  match snd m with
  | Return _ => True
  | Raise e => is_Exception e = true
  end.

(** What the [try] block of an attempt ends in: the failure it meets first,
    call by call, or the two raw texts of the page. *)
Definition try_outcome (pe : page_env) (retry_delay : float) (attempt : Z)
  : outcome (str * str) :=
  match (if 1 <? attempt
         then match Py.times retry_delay attempt with
              | Some _ => backoff_sleep_r pe
              | None => Some OverflowError
              end
         else None) with
  | Some e => Raise e
  | None =>
  match goto_r pe with
  | Some e => Raise e
  | None =>
  match settle_sleep_r pe with
  | Some e => Raise e
  | None =>
  match wait_for_selector_r pe with
  | Some e => Raise e
  | None =>
  match name_text_r pe with
  | Raise e => Raise e
  | Return None => Raise AttributeError
  | Return (Some raw_name) =>
  match grade_text_r pe with
  | Raise e => Raise e
  | Return None => Raise AttributeError
  | Return (Some raw_grade) =>
  match close_r pe with
  | Some e => Raise e
  | None => Return (raw_name, raw_grade)
  end end end end end end end.

(** The log record an attempt writes for a failure it catches. *)
Definition failure_log (certificate_id : str) (attempt : Z) (e : exn) : event :=
  match e with
  | PlaywrightTimeoutError => EvLog WARNING (LogTimeout certificate_id attempt)
  | _ => EvLog ERROR (LogFetchError certificate_id e)
  end.

(** What the [try] block of the snapshot routine ends in: the failure it
    meets first, or the content it has written. *)
Definition snapshot_try_outcome (se : snapshot_env) : outcome str :=
  match snap_goto_r se with
  | Some e => Raise e
  | None =>
  match snap_sleep_r se with
  | Some e => Raise e
  | None =>
  match snap_content_r se with
  | Raise e => Raise e
  | Return content =>
  match snap_write_r se with
  | Some e => Raise e
  | None => Return content
  end end end end.


(** ** Normal forms of the extracted texts *)

(** Neither the first nor the last character is whitespace. *)
Definition unpadded (s : str) : Prop :=
  Py.isspace (hd 0%N s) = false /\ Py.isspace (hd 0%N (rev s)) = false.

(** Every whitespace character is U+0020 and the character after it is not
    whitespace. *)
Fixpoint single_spaced (s : str) : bool :=
  match s with
  | [] => true
  | c :: s' =>
      (if Py.isspace c
       then (c =? Py.space)%N && negb (Py.isspace (hd 0%N s'))
       else true)
      && single_spaced s'
  end.

Definition blank (s : str) : bool := forallb Py.isspace s.

(** [name] is [raw] with its whitespace collapsed: the same words, one
    space between two words, nothing around. *)
Definition collapsed (raw name : str) : Prop :=
  Py.split name = Py.split raw
  /\ single_spaced name = true
  /\ unpadded name.

(** [grade] is [raw] without the whitespace around it. *)
Definition trimmed (raw grade : str) : Prop :=
  (exists pre suf, raw = pre ++ grade ++ suf
                   /\ blank pre = true /\ blank suf = true)
  /\ unpadded grade.


(** No character of [w] is whitespace. *)
Definition spaceless (w : str) : Prop :=
  forall c, In c w -> Py.isspace c = false.

(** A word: a non-empty string without whitespace. *)
Definition word (w : str) : Prop := w <> [] /\ spaceless w.

(** ** Further observations *)

Definition page_eqb (p q : page) : bool :=
  match p, q with
  | AttemptPage j, AttemptPage k => j =? k
  | SnapshotPage, SnapshotPage => true
  | _, _ => false
  end.

(** The last event of a trace. *)
Definition last_event (t : trace) : option event := hd_error (rev t).

(** How many times a page is closed. *)
Definition closes (p : page) (t : trace) : nat :=
  List.length (filter (fun e => match e with
                                | EvClose q => page_eqb p q
                                | _ => false
                                end) t).

(** The files written, with their contents, in order. *)
Definition files_written (t : trace) : list (str * str) :=
  flat_map (fun e => match e with
                     | EvWriteFile path content => [(path, content)]
                     | _ => []
                     end) t.

(** Every call of an attempt up to the selector wait succeeds. *)
Definition reaches_extraction (pe : page_env) : bool :=
  succeeds (new_page_r pe) && succeeds (stealth_r pe)
  && succeeds (backoff_sleep_r pe) && succeeds (goto_r pe)
  && succeeds (settle_sleep_r pe) && succeeds (wait_for_selector_r pe).

(** Events of the dispatch loop of a window. *)
Definition is_dispatch (e : event) : bool :=
  match e with
  | EvSleep Pace _ | EvCreateTask _ _ => true
  | _ => false
  end.

(** Events of a worker run by [gather]. *)
Definition is_task (e : event) : bool :=
  match e with
  | EvTask _ _ => true
  | _ => false
  end.

(** The accesses to the report file, in order. *)
Definition report_events (t : trace) : trace := filter is_report t.

Definition is_browser_close (e : event) : bool :=
  match e with
  | EvBrowserClose => true
  | _ => false
  end.

(* ================================================================== *)
(** * Sample environments *)

Definition ok_page (name grade : str) : page_env := {|
  new_page_r := None; stealth_r := None; backoff_sleep_r := None;
  goto_r := None; settle_sleep_r := None; wait_for_selector_r := None;
  name_text_r := Return (Some name); grade_text_r := Return (Some grade);
  close_r := None; close_finally_r := None |}.

(** The navigation times out. *)
Definition timeout_page : page_env := {|
  new_page_r := None; stealth_r := None; backoff_sleep_r := None;
  goto_r := Some PlaywrightTimeoutError;
  settle_sleep_r := None; wait_for_selector_r := None;
  name_text_r := Return None; grade_text_r := Return None;
  close_r := None; close_finally_r := None |}.

(** The browser refuses to open a page. *)
Definition no_page : page_env := {|
  new_page_r := Some (OtherError "Target closed");
  stealth_r := None; backoff_sleep_r := None;
  goto_r := None; settle_sleep_r := None; wait_for_selector_r := None;
  name_text_r := Return None; grade_text_r := Return None;
  close_r := None; close_finally_r := None |}.

Definition ok_snapshot : snapshot_env := {|
  snap_new_page_r := None; snap_stealth_r := None; snap_makedirs_r := None;
  snap_goto_r := None; snap_sleep_r := None;
  snap_content_r := Return (lit "<html></html>");
  snap_write_r := None; snap_close_r := None |}.

(** The snapshot directory cannot be created. *)
Definition no_directory_snapshot : snapshot_env := {|
  snap_new_page_r := None; snap_stealth_r := None;
  snap_makedirs_r := Some (OtherError "Permission denied");
  snap_goto_r := None; snap_sleep_r := None;
  snap_content_r := Return (lit "<html></html>");
  snap_write_r := None; snap_close_r := None |}.


(** The snapshot cannot be written to disk. *)
Definition unwritable_snapshot : snapshot_env := {|
  snap_new_page_r := None; snap_stealth_r := None; snap_makedirs_r := None;
  snap_goto_r := None; snap_sleep_r := None;
  snap_content_r := Return (lit "<html></html>");
  snap_write_r := Some (OtherError "Permission denied");
  snap_close_r := None |}.

Definition ok_item (name grade : str) : item_env :=
  {| attempts := fun _ => ok_page name grade; snapshot := ok_snapshot |}.

Definition failing_item : item_env :=
  {| attempts := fun _ => timeout_page; snapshot := ok_snapshot |}.

Definition unreachable_item : item_env :=
  {| attempts := fun _ => no_page; snapshot := ok_snapshot |}.

(** Succeeds on the second attempt. *)
Definition flaky_item (name grade : str) : item_env :=
  {| attempts := fun k => if k =? 1 then timeout_page else ok_page name grade;
     snapshot := ok_snapshot |}.

Definition ok_batch (name grade : str) : batch_env :=
  {| pace_sleep_r := fun _ => None; item := fun _ => ok_item name grade;
     first_raised := hd 0%nat |}.

Definition sample_args (c : Z) : args := {|
  input := DEFAULT_INPUT_FILE; output := None; concurrency := c;
  timeout := DEFAULT_TIMEOUT; retries := DEFAULT_RETRY_COUNT;
  delay := DEFAULT_RETRY_DELAY; rate_limit := DEFAULT_RATE_LIMIT;
  verbose := false |}.

(** Three identifiers in windows of two; the second one always times out. *)
Definition scenario_world : world := {|
  now := lit "20240101_000000";
  sigint := false;
  input_exists := true;
  input_lines := Return [lit "A1"; lit "A2"; lit "A3"];
  launch_r := None;
  window_env := fun i =>
    {| pace_sleep_r := fun _ => None;
       item := fun j => if (i =? 0) && (j =? 1)%nat
                        then failing_item
                        else ok_item (lit "Pikachu  V") (lit " 10 ");
       first_raised := hd 0%nat |};
  browser_close_r := None;
  open_report_r := None;
  write_rows_r := None |}.

Definition scenario_args : args := {|
  input := DEFAULT_INPUT_FILE; output := None; concurrency := 2;
  timeout := DEFAULT_TIMEOUT; retries := 1;
  delay := DEFAULT_RETRY_DELAY; rate_limit := DEFAULT_RATE_LIMIT;
  verbose := false |}.





Definition sample_world (lines : outcome (list str)) (found : bool) : world := {|
  now := lit "20240101_000000";
  sigint := false;
  input_exists := found;
  input_lines := lines;
  launch_r := None;
  window_env := fun _ => ok_batch (lit "Pikachu  V ") (lit " 10 ");
  browser_close_r := None;
  open_report_r := None;
  write_rows_r := None |}.

(** The texts are there, but closing the page fails. *)
Definition close_fails_page (name grade : str) (e : exn) : page_env := {|
  new_page_r := None; stealth_r := None; backoff_sleep_r := None;
  goto_r := None; settle_sleep_r := None; wait_for_selector_r := None;
  name_text_r := Return (Some name); grade_text_r := Return (Some grade);
  close_r := Some e; close_finally_r := None |}.

(** The heading is found but has no text. *)
Definition textless_page : page_env := {|
  new_page_r := None; stealth_r := None; backoff_sleep_r := None;
  goto_r := None; settle_sleep_r := None; wait_for_selector_r := None;
  name_text_r := Return None; grade_text_r := Return (Some (lit "10"));
  close_r := None; close_finally_r := None |}.

(** The page opens but cannot be made stealthy. *)
Definition stealth_fails_page : page_env := {|
  new_page_r := None; stealth_r := Some (OtherError "Target closed");
  backoff_sleep_r := None;
  goto_r := None; settle_sleep_r := None; wait_for_selector_r := None;
  name_text_r := Return None; grade_text_r := Return None;
  close_r := None; close_finally_r := None |}.

(** A window whose second worker cannot open a page. *)
Definition second_unreachable_batch : batch_env :=
  {| pace_sleep_r := fun _ => None;
     item := fun j => if (j =? 1)%nat
                      then unreachable_item
                      else ok_item (lit "Pikachu V") (lit "10");
     first_raised := hd 0%nat |}.

(** One identifier, and the browser refuses to open a page for it. *)
Definition unreachable_world : world := {|
  now := lit "20240101_000000";
  sigint := false;
  input_exists := true;
  input_lines := Return [lit "A1"];
  launch_r := None;
  window_env := fun _ =>
    {| pace_sleep_r := fun _ => None; item := fun _ => unreachable_item;
       first_raised := hd 0%nat |};
  browser_close_r := None;
  open_report_r := None;
  write_rows_r := None |}.

(** Everything is fetched, but the output file cannot be opened. *)
Definition unwritable_world : world := {|
  now := lit "20240101_000000";
  sigint := false;
  input_exists := true;
  input_lines := Return [lit "A1"];
  launch_r := None;
  window_env := fun _ => ok_batch (lit "Pikachu V") (lit "10");
  browser_close_r := None;
  open_report_r := Some (OtherError "Permission denied");
  write_rows_r := None |}.

(* ================================================================== *)
(** * Strings: [split], [join] and [strip] *)

Section Strings.

Lemma hd_in (d : char) (s : str) : s <> [] -> In (hd d s) s.
Proof. destruct s; [congruence | intros _; now left]. Qed.

Lemma hd_app (d : char) (s t : str) : s <> [] -> hd d (s ++ t) = hd d s.
Proof. destruct s; [congruence | reflexivity]. Qed.

Lemma hd_rev_app (d : char) (s t : str) :
  t <> [] -> hd d (rev (s ++ t)) = hd d (rev t).
Proof.
  intros Ht. rewrite rev_app_distr. apply hd_app.
  intros E. apply Ht. rewrite <- (rev_involutive t), E. reflexivity.
Qed.

Lemma blank_rev (s : str) : blank s = true -> blank (rev s) = true.
Proof.
  unfold blank. rewrite !forallb_forall. intros H c Hc.
  apply H. now apply in_rev.
Qed.

Lemma spaceless_rev (w : str) : spaceless w -> spaceless (rev w).
Proof. intros H c Hc. apply H. now apply in_rev. Qed.

Lemma spaceless_cons (c : char) (w : str) :
  Py.isspace c = false -> spaceless w -> spaceless (c :: w).
Proof. intros Hc Hw x [<- | Hx]; auto. Qed.

Lemma split_from_spaceless (w : str) :
  spaceless w ->
  forall cur s, Py.split_from cur (w ++ s) = Py.split_from (rev w ++ cur) s.
Proof.
  induction w as [| c w IH]; intros Hw cur s; [reflexivity |].
  simpl. rewrite (Hw c (or_introl eq_refl)).
  rewrite IH by (intros x Hx; apply Hw; now right).
  now rewrite <- app_assoc.
Qed.

Lemma rev_word (cur : str) :
  Py.nonempty cur = true -> spaceless cur -> word (rev cur).
Proof.
  intros N H. split; [| now apply spaceless_rev].
  intros E. apply (f_equal (@List.length char)) in E.
  rewrite length_rev in E. destruct cur; discriminate.
Qed.

Lemma split_from_words (s : str) :
  forall cur, spaceless cur -> Forall word (Py.split_from cur s).
Proof.
  induction s as [| c s IH]; intros cur Hcur; cbn [Py.split_from].
  - destruct (Py.nonempty cur) eqn:N; constructor; [| constructor].
    now apply rev_word.
  - destruct (Py.isspace c) eqn:Hc.
    + destruct (Py.nonempty cur) eqn:N.
      * constructor; [now apply rev_word | apply IH; intros y []].
      * apply IH. intros y [].
    + apply IH. now apply spaceless_cons.
Qed.

Lemma split_words (s : str) : Forall word (Py.split s).
Proof. apply split_from_words. intros c []. Qed.

Lemma nonempty_rev (w : str) : w <> [] -> Py.nonempty (rev w) = true.
Proof.
  intros Hne. destruct (rev w) eqn:E; [| reflexivity].
  exfalso. apply Hne. rewrite <- (rev_involutive w), E. reflexivity.
Qed.

Lemma split_from_end (w : str) : word w -> Py.split_from [] w = [w].
Proof.
  intros [Hne Hw]. rewrite <- (app_nil_r w) at 1.
  rewrite split_from_spaceless by assumption.
  rewrite app_nil_r. cbn [Py.split_from].
  now rewrite nonempty_rev, rev_involutive.
Qed.

Lemma split_from_word (w s : str) :
  word w ->
  Py.split_from [] (w ++ Py.space :: s) = w :: Py.split_from [] s.
Proof.
  intros [Hne Hw]. rewrite split_from_spaceless by assumption.
  rewrite app_nil_r. cbn [Py.split_from].
  change (Py.isspace Py.space) with true. cbv iota.
  now rewrite nonempty_rev, rev_involutive.
Qed.

Lemma split_join (ws : list str) :
  Forall word ws -> Py.split (Py.join [Py.space] ws) = ws.
Proof.
  unfold Py.split.
  induction ws as [| w ws IH]; intros H; [reflexivity |].
  inversion H as [| ? ? Hw Hws]; subst.
  destruct ws as [| w2 ws].
  - now apply split_from_end.
  - change (Py.join [Py.space] (w :: w2 :: ws))
      with (w ++ Py.space :: Py.join [Py.space] (w2 :: ws)).
    rewrite split_from_word by assumption.
    now rewrite IH.
Qed.

Lemma join_hd (w : str) (ws : list str) :
  w <> [] -> hd 0%N (Py.join [Py.space] (w :: ws)) = hd 0%N w.
Proof.
  intros Hne. destruct ws; [reflexivity |].
  change (Py.join [Py.space] (w :: s :: ws))
    with (w ++ Py.space :: Py.join [Py.space] (s :: ws)).
  now apply hd_app.
Qed.

Lemma join_nonempty (w : str) (ws : list str) :
  w <> [] -> Py.join [Py.space] (w :: ws) <> [].
Proof.
  intros Hne. destruct ws; [assumption |].
  change (Py.join [Py.space] (w :: s :: ws))
    with (w ++ Py.space :: Py.join [Py.space] (s :: ws)).
  destruct w; [congruence | discriminate].
Qed.

Lemma single_spaced_app (w s : str) :
  spaceless w -> single_spaced (w ++ s) = single_spaced s.
Proof.
  induction w as [| c w IH]; intros Hw; [reflexivity |].
  simpl. rewrite (Hw c (or_introl eq_refl)). simpl.
  apply IH. intros x Hx. apply Hw. now right.
Qed.

Lemma join_single_spaced (ws : list str) :
  Forall word ws -> single_spaced (Py.join [Py.space] ws) = true.
Proof.
  induction ws as [| w ws IH]; intros H; [reflexivity |].
  inversion H as [| ? ? Hw Hws]; subst.
  destruct ws as [| w2 ws].
  - simpl. rewrite <- (app_nil_r w).
    rewrite single_spaced_app by apply Hw. reflexivity.
  - change (Py.join [Py.space] (w :: w2 :: ws))
      with (w ++ Py.space :: Py.join [Py.space] (w2 :: ws)).
    rewrite single_spaced_app by apply Hw.
    inversion Hws as [| ? ? Hw2 _]; subst.
    change (single_spaced (Py.space :: Py.join [Py.space] (w2 :: ws)))
      with (negb (Py.isspace (hd 0%N (Py.join [Py.space] (w2 :: ws))))
            && single_spaced (Py.join [Py.space] (w2 :: ws))).
    rewrite join_hd by apply Hw2.
    destruct Hw2 as [Hne2 Hs2].
    match goal with
    | |- context [Py.isspace ?x] =>
        replace (Py.isspace x) with false
          by (symmetry; apply Hs2; now apply hd_in)
    end.
    simpl.
    now apply IH.
Qed.

Lemma join_unpadded (ws : list str) :
  Forall word ws -> unpadded (Py.join [Py.space] ws).
Proof.
  intros H. split.
  - destruct ws as [| w ws]; [reflexivity |].
    inversion H as [| ? ? [Hne Hw] _]; subst.
    rewrite join_hd by assumption. apply Hw. now apply hd_in.
  - induction ws as [| w ws IH]; [reflexivity |].
    inversion H as [| ? ? [Hne Hw] Hws]; subst.
    destruct ws as [| w2 ws].
    + simpl. apply (spaceless_rev w Hw). apply hd_in.
      intros E. apply Hne. rewrite <- (rev_involutive w), E. reflexivity.
    + change (Py.join [Py.space] (w :: w2 :: ws))
        with (w ++ Py.space :: Py.join [Py.space] (w2 :: ws)).
      change (w ++ Py.space :: Py.join [Py.space] (w2 :: ws))
        with (w ++ [Py.space] ++ Py.join [Py.space] (w2 :: ws)).
      rewrite app_assoc, hd_rev_app.
      * now apply IH.
      * inversion Hws as [| ? ? [Hne2 _] _]; subst. now apply join_nonempty.
Qed.

(** What [" ".join(raw.split())] achieves. *)
Lemma collapse_collapsed (raw : str) :
  collapsed raw (Py.join [Py.space] (Py.split raw)).
Proof.
  pose proof (split_words raw) as H.
  split; [| split].
  - now apply split_join.
  - now apply join_single_spaced.
  - now apply join_unpadded.
Qed.

Lemma lstrip_spec (s : str) :
  (exists pre, s = pre ++ Py.lstrip s /\ blank pre = true)
  /\ Py.isspace (hd 0%N (Py.lstrip s)) = false.
Proof.
  induction s as [| c s [[pre [E B]] Hh]]; simpl.
  - split; [exists []; now split | reflexivity].
  - destruct (Py.isspace c) eqn:Hc.
    + split; [| assumption].
      exists (c :: pre). split; [simpl; now f_equal |].
      simpl. now rewrite Hc.
    + split; [exists []; now split | exact Hc].
Qed.

Lemma rstrip_spec (s : str) :
  (exists suf, s = Py.rstrip s ++ suf /\ blank suf = true)
  /\ Py.isspace (hd 0%N (rev (Py.rstrip s))) = false.
Proof.
  unfold Py.rstrip.
  destruct (lstrip_spec (rev s)) as [[pre [E B]] Hh].
  split.
  - exists (rev pre). split; [| now apply blank_rev].
    rewrite <- rev_app_distr, <- E. now rewrite rev_involutive.
  - now rewrite rev_involutive.
Qed.

(** What [raw.strip()] achieves. *)
Lemma strip_trimmed (raw : str) : trimmed raw (Py.strip raw).
Proof.
  unfold Py.strip.
  destruct (lstrip_spec raw) as [[pre [E B]] Hh].
  destruct (rstrip_spec (Py.lstrip raw)) as [[suf [E' B']] Hh'].
  split; [| split].
  - exists pre, suf. split; [| now split].
    now rewrite <- E', <- E.
  - destruct (Py.rstrip (Py.lstrip raw)) eqn:G; [reflexivity |].
    rewrite E' in Hh. exact Hh.
  - exact Hh'.
Qed.

Lemma lstrip_blank (s : str) : blank s = true -> Py.lstrip s = [].
Proof.
  induction s as [| c s IH]; [reflexivity |].
  simpl. destruct (Py.isspace c); [exact IH | discriminate].
Qed.

(** A line strips to nothing exactly when it is blank. *)
Lemma strip_nil_iff (s : str) : Py.strip s = [] <-> blank s = true.
Proof.
  split.
  - intros E. destruct (strip_trimmed s) as [[pre [suf [Es [Bp Bs]]]] _].
    rewrite E in Es. rewrite Es. unfold blank in *.
    rewrite forallb_app, Bp. exact Bs.
  - intros B. unfold Py.strip. now rewrite (lstrip_blank s B).
Qed.

(** The input yields no identifier exactly when all its lines are blank. *)
Lemma usable_ids_nil_iff (lines : list str) :
  usable_ids lines = [] <-> forallb blank lines = true.
Proof.
  unfold usable_ids.
  induction lines as [| l lines IH]; [now split |].
  simpl. destruct (Py.strip l) eqn:E; simpl.
  - apply strip_nil_iff in E. rewrite E. exact IH.
  - split; [discriminate |].
    intros H. apply andb_true_iff in H. destruct H as [B _].
    apply strip_nil_iff in B. congruence.
Qed.

End Strings.

(* ================================================================== *)
(** * The effect monad *)

Section Effects.

Context {A B : Type}.

Lemma bind_snd (m : M A) (f : A -> M B) :
  snd (bind m f) = match snd m with
                   | Return a => snd (f a)
                   | Raise e => Raise e
                   end.
Proof. destruct m as [t [a | e]]; simpl; [destruct (f a) |]; reflexivity. Qed.

Lemma bind_fst (m : M A) (f : A -> M B) :
  fst (bind m f) = fst m ++ match snd m with
                            | Return a => fst (f a)
                            | Raise _ => []
                            end.
Proof.
  destruct m as [t [a | e]]; simpl; [destruct (f a) | rewrite app_nil_r];
    reflexivity.
Qed.

Lemma tef_snd (body : M A) (h : exn -> option (M A)) (fin : M unit) :
  snd (try_except_finally body h fin)
  = match snd fin with
    | Raise e' => Raise e'
    | Return _ =>
        match snd body with
        | Return a => Return a
        | Raise e => match h e with
                     | Some hm => snd hm
                     | None => Raise e
                     end
        end
    end.
Proof.
  destruct body as [t1 [a | e]], fin as [t3 [[] | e3]]; simpl;
    try reflexivity; destruct (h e) as [[t2 r2] |]; reflexivity.
Qed.

Lemma tef_fst (body : M A) (h : exn -> option (M A)) (fin : M unit) :
  fst (try_except_finally body h fin)
  = fst body
    ++ match snd body with
       | Return _ => []
       | Raise e => match h e with
                    | Some hm => fst hm
                    | None => []
                    end
       end
    ++ fst fin.
Proof.
  destruct body as [t1 [a | e]], fin as [t3 r3]; simpl;
    try reflexivity; destruct (h e) as [[t2 r2] |]; reflexivity.
Qed.

Lemma contained_bind (m : M A) (f : A -> M B) :
  contained m -> (forall a, contained (f a)) -> contained (bind m f).
Proof.
  unfold contained. rewrite bind_snd.
  destruct (snd m); [intros _ H; apply H | intros H _; exact H].
Qed.

End Effects.

Lemma contained_ret {A} (a : A) : contained (ret a).
Proof. exact I. Qed.

Lemma contained_log (lv : level) (r : log_record) : contained (log lv r).
Proof. exact I. Qed.

Lemma contained_perform (ev : event) (r : option exn) :
  tame r = true -> contained (perform ev r).
Proof. destruct r; intros H; [exact H | exact I]. Qed.

Lemma contained_call {A} (ev : event) (r : outcome A) :
  tame_out r = true -> contained (call ev r).
Proof. destruct r; intros H; [exact I | exact H]. Qed.

Lemma contained_text_of (t : option str) : contained (text_of t).
Proof. destruct t; [exact I | reflexivity]. Qed.

Lemma contained_backoff_delay (retry_delay : float) (attempt : Z) :
  contained (backoff_delay retry_delay attempt).
Proof.
  unfold backoff_delay. destruct (Py.times retry_delay attempt);
    [exact I | reflexivity].
Qed.

(** A loop whose iterations all fall through runs every iteration and then
    what follows the loop. *)
Lemma for_each_all_next {X A} (xs : list X) (body : X -> M (flow A))
    (after : M A) :
  (forall x, In x xs -> snd (body x) = Return Next) ->
  for_each xs body after
  = (flat_map (fun x => fst (body x)) xs ++ fst after, snd after).
Proof.
  induction xs as [| x xs IH]; intros H; simpl.
  - now destruct after.
  - pose proof (H x (or_introl eq_refl)) as Hx.
    destruct (body x) as [t r]. simpl in Hx. subst r. simpl.
    rewrite IH by (intros y Hy; apply H; now right).
    now rewrite app_assoc.
Qed.

(** A loop returns the value of its first iteration that returns. *)
Lemma for_each_first_return {X A} (pre : list X) (x : X) (post : list X)
    (body : X -> M (flow A)) (after : M A) (v : A) :
  (forall y, In y pre -> snd (body y) = Return Next) ->
  snd (body x) = Return (Returned v) ->
  snd (for_each (pre ++ x :: post) body after) = Return v.
Proof.
  intros Hpre Hx. induction pre as [| y pre IH]; simpl.
  - destruct (body x) as [t r]. simpl in Hx. subst r. reflexivity.
  - pose proof (Hpre y (or_introl eq_refl)) as Hy.
    destruct (body y) as [t r]. simpl in Hy. subst r. simpl.
    specialize (IH (fun z Hz => Hpre z (or_intror Hz))).
    destruct (for_each (pre ++ x :: post) body after). simpl in *.
    exact IH.
Qed.

(** Whatever a loop returns was returned by an iteration or by what follows
    the loop. *)
Lemma for_each_return {X A} (xs : list X) (body : X -> M (flow A))
    (after : M A) (v : A) :
  snd (for_each xs body after) = Return v ->
  (exists x, In x xs /\ snd (body x) = Return (Returned v))
  \/ snd after = Return v.
Proof.
  induction xs as [| x xs IH]; simpl; intros H; [now right |].
  rewrite bind_snd in H.
  destruct (snd (body x)) as [[| u] | e] eqn:E; try discriminate.
  - destruct (IH H) as [[y [Hy Ey]] | Ha]; [left | now right].
    exists y. split; [now right | exact Ey].
  - simpl in H. injection H as <-. left. exists x. split; [now left | exact E].
Qed.

(** A loop returns when no iteration raises and what follows it returns. *)
Lemma for_each_returns {X A} (xs : list X) (body : X -> M (flow A))
    (after : M A) :
  (forall x, In x xs -> exists f, snd (body x) = Return f) ->
  (exists v, snd after = Return v) ->
  exists v, snd (for_each xs body after) = Return v.
Proof.
  intros Hb Ha. induction xs as [| x xs IH]; simpl; [exact Ha |].
  rewrite bind_snd.
  destruct (Hb x (or_introl eq_refl)) as [[| u] E]; rewrite E.
  - apply IH. intros y Hy. apply Hb. now right.
  - now exists u.
Qed.

(* ================================================================== *)
(** * One attempt and the snapshot routine *)

(** Runs a computation on an environment given field by field, splitting on
    each result the environment is asked for. *)
Ltac run_env :=
  repeat (cbn -[Py.join Py.split Py.strip cert_url snapshot_path
                NAME_XPATH GRADE_XPATH DEBUG_DIR SENTINEL
                SFmul Py.times Py.float_of Py.float_of_int Z.ltb] in *;
          try discriminate;
          match goal with
          | |- context [match Py.times ?x ?k with _ => _ end] =>
              destruct (Py.times x k)
          | H : context [match Py.times ?x ?k with _ => _ end] |- _ =>
              destruct (Py.times x k)
          | |- context [match ?x with _ => _ end] => is_var x; destruct x
          | |- context [if is_Exception ?x then _ else _] => is_var x; destruct x
          | H : context [match ?x with _ => _ end] |- _ => is_var x; destruct x
          | H : context [if is_Exception ?x then _ else _] |- _ =>
              is_var x; destruct x
          end).

Ltac open_attempt pe :=
  destruct pe as [np st bo go se wa nm gr cl cf];
  unfold attempt_fails, fetch_attempt, create_stealth_page, attempt_body,
    attempt_handler, backoff_delay, try_except_finally, perform, call, log,
    text_of, bind, ret, raise in *;
  cbn [new_page_r stealth_r backoff_sleep_r goto_r settle_sleep_r
       wait_for_selector_r name_text_r grade_text_r close_r close_finally_r] in *.

Ltac open_snapshot se :=
  destruct se as [np st md go sl co wr cl];
  unfold snapshot_returns, save_debug_snapshot, create_stealth_page,
    try_except_finally, perform, call, log, bind, ret, raise in *;
  cbn [snap_new_page_r snap_stealth_r snap_makedirs_r snap_goto_r snap_sleep_r
       snap_content_r snap_write_r snap_close_r] in *.

Section Attempt.

Variables (certificate_id : str) (timeout retry_count : Z) (retry_delay : float).

(** An attempt opens its own page, once, and never enters the snapshot
    routine. *)
Lemma attempt_trace (pe : page_env) (k : Z) :
  let t := fst (fetch_attempt pe certificate_id timeout retry_count retry_delay k) in
  attempts_made t = [k] /\ snapshots_begun t = 0%nat /\ snapshot_gotos t = [].
Proof.
  open_attempt pe. destruct (1 <? k); run_env; repeat split; reflexivity.
Qed.



(** The value an attempt returns is the identifier with the two texts of
    the page, normalised. *)
Lemma attempt_value (pe : page_env) (k : Z) (v : option result) :
  snd (fetch_attempt pe certificate_id timeout retry_count retry_delay k)
  = Return (Returned v) ->
  exists raw_name raw_grade,
    name_text_r pe = Return (Some raw_name)
    /\ grade_text_r pe = Return (Some raw_grade)
    /\ v = Some (certificate_id,
                 Py.join [Py.space] (Py.split raw_name),
                 Py.strip raw_grade).
Proof.
  open_attempt pe. destruct (1 <? k); intros H; run_env;
    injection H as <-; eexists; eexists; repeat split; reflexivity.
Qed.

Lemma attempt_body_contained (pe : page_env) (k : Z) :
  page_guarded pe = true ->
  contained (attempt_body pe certificate_id timeout retry_count retry_delay k).
Proof.
  unfold page_guarded. rewrite !andb_true_iff.
  intros [[[[[[[[[_ _] _] Hbo] Hgo] Hse] Hwa] Hnm] Hgr] Hcl].
  unfold attempt_body.
  repeat first
    [ apply contained_ret | apply contained_log | apply contained_text_of
    | apply contained_backoff_delay
    | apply contained_perform; assumption
    | apply contained_call; assumption
    | apply contained_bind; [| intros ?]
    | match goal with
      | |- context [if 1 <? k then _ else _] => destruct (1 <? k)
      end ].
Qed.

Lemma attempt_handler_next (k : Z) (e : exn) :
  is_Exception e = true ->
  exists t, attempt_handler certificate_id k e = Some (t, Return Next).
Proof. destruct e; try discriminate; intros _; eexists; reflexivity. Qed.

(** With the unguarded calls succeeding and the guarded ones contained, an
    attempt never raises. *)
Lemma attempt_returns (pe : page_env) (k : Z) :
  page_guarded pe = true ->
  exists f,
    snd (fetch_attempt pe certificate_id timeout retry_count retry_delay k) = Return f.
Proof.
  intros G. pose proof (attempt_body_contained pe k G) as C.
  unfold page_guarded in G. rewrite !andb_true_iff in G.
  destruct G as [[[[[[[[[Hnp Hst] Hcf] _] _] _] _] _] _] _].
  unfold fetch_attempt, create_stealth_page.
  destruct (new_page_r pe); [discriminate |].
  destruct (stealth_r pe); [discriminate |].
  destruct (close_finally_r pe); [discriminate |].
  rewrite !bind_snd, tef_snd. simpl.
  unfold contained in C.
  destruct (snd (attempt_body pe certificate_id timeout retry_count retry_delay k))
    as [f | e]; [now exists f |].
  destruct (attempt_handler_next k e C) as [t ->]. now exists Next.
Qed.

(** The snapshot routine opens its page once and no attempt page. *)
Lemma snapshot_trace (se : snapshot_env) :
  let t := fst (save_debug_snapshot se certificate_id timeout) in
  attempts_made t = [] /\ backoff_delays t = [] /\ snapshots_begun t = 1%nat.
Proof. open_snapshot se. run_env; repeat split; reflexivity. Qed.

(** When it comes back it has navigated once, to the certificate's address
    with the worker's timeout. *)
Lemma snapshot_goto (se : snapshot_env) :
  snapshot_returns se certificate_id timeout ->
  snapshot_gotos (fst (save_debug_snapshot se certificate_id timeout))
  = [(cert_url certificate_id, timeout)].
Proof. open_snapshot se. intros H. run_env; reflexivity. Qed.

Lemma snapshot_guarded_returns (se : snapshot_env) :
  snapshot_guarded se = true -> snapshot_returns se certificate_id timeout.
Proof.
  unfold snapshot_guarded. open_snapshot se. intros H. run_env; reflexivity.
Qed.

End Attempt.

(* ================================================================== *)
(** * The retry loop *)

Lemma attempt_numbers_eq (retry_count : Z) :
  attempt_numbers retry_count
  = map Z.of_nat (seq 1 (Z.to_nat (retry_count + 1))).
Proof.
  unfold attempt_numbers, Py.range, Py.range_len.
  change (1 =? 0) with false. change (0 <? 1) with true. cbv iota.
  destruct (1 <? retry_count + 2) eqn:E.
  - rewrite Z.div_1_r.
    replace (retry_count + 2 - 1 - 1 + 1) with (retry_count + 1) by lia.
    rewrite <- seq_shift, map_map. apply map_ext. intros n.
    rewrite Nat2Z.inj_succ. lia.
  - apply Z.ltb_ge in E.
    replace (Z.to_nat (retry_count + 1)) with 0%nat by lia. reflexivity.
Qed.

Lemma attempt_numbers_in (retry_count k : Z) :
  In k (attempt_numbers retry_count) <-> 1 <= k <= retry_count + 1.
Proof.
  rewrite attempt_numbers_eq, in_map_iff. split.
  - intros [n [<- Hn]]. apply in_seq in Hn. lia.
  - intros H. exists (Z.to_nat k). split; [lia |]. apply in_seq. lia.
Qed.

Lemma attempt_numbers_cons (retry_count : Z) :
  0 <= retry_count ->
  attempt_numbers retry_count
  = 1 :: map Z.of_nat (seq 2 (Z.to_nat retry_count)).
Proof.
  intros H. rewrite attempt_numbers_eq.
  replace (Z.to_nat (retry_count + 1)) with (S (Z.to_nat retry_count)) by lia.
  reflexivity.
Qed.

(** The attempts before [k], [k] itself, and the ones after. *)
Lemma attempt_numbers_split (retry_count k : Z) :
  1 <= k <= retry_count + 1 ->
  exists pre post,
    attempt_numbers retry_count = pre ++ k :: post
    /\ forall j, In j pre -> 1 <= j < k.
Proof.
  intros H. rewrite attempt_numbers_eq.
  set (m := Z.to_nat (retry_count + 1)).
  set (n := Z.to_nat (k - 1)).
  exists (map Z.of_nat (seq 1 n)), (map Z.of_nat (seq (S (S n)) (m - S n))).
  split.
  - replace m with (n + S (m - S n))%nat by lia.
    rewrite seq_app, map_app. f_equal. cbn [seq map].
    f_equal; [lia | f_equal; f_equal; lia].
  - intros j Hj. apply in_map_iff in Hj. destruct Hj as [i [<- Hi]].
    apply in_seq in Hi. lia.
Qed.

Lemma flat_map_loop {X Y} (o : event -> list Y) (g : X -> trace)
    (h : X -> list Y) (xs : list X) :
  (forall x, In x xs -> flat_map o (g x) = h x) ->
  flat_map o (flat_map g xs) = flat_map h xs.
Proof.
  induction xs as [| x xs IH]; intros H; [reflexivity |].
  simpl. rewrite flat_map_app, (H x (or_introl eq_refl)).
  f_equal. apply IH. intros y Hy. apply H. now right.
Qed.

Lemma flat_map_singleton {X} (xs : list X) : flat_map (fun x => [x]) xs = xs.
Proof. induction xs; simpl; congruence. Qed.

Lemma flat_map_none {X Y} (xs : list X) :
  flat_map (fun _ : X => @nil Y) xs = [].
Proof. induction xs as [| x xs IH]; [reflexivity | exact IH]. Qed.

Lemma attempt_no_files (pe : page_env) (certificate_id : str)
    (timeout retry_count : Z) (retry_delay : float) (k : Z) :
  files_written (fst (fetch_attempt pe certificate_id timeout retry_count
                                    retry_delay k)) = [].
Proof. open_attempt pe. destruct (1 <? k); run_env; reflexivity. Qed.

Lemma snapshots_begun_app (t1 t2 : trace) :
  snapshots_begun (t1 ++ t2) = (snapshots_begun t1 + snapshots_begun t2)%nat.
Proof. unfold snapshots_begun. now rewrite filter_app, length_app. Qed.

Lemma snapshots_begun_loop {X} (g : X -> trace) (xs : list X) :
  (forall x, In x xs -> snapshots_begun (g x) = 0%nat) ->
  snapshots_begun (flat_map g xs) = 0%nat.
Proof.
  induction xs as [| x xs IH]; intros H; [reflexivity |].
  simpl. rewrite snapshots_begun_app, (H x (or_introl eq_refl)).
  apply IH. intros y Hy. apply H. now right.
Qed.

Section Worker.

Variables (env : item_env) (certificate_id : str)
          (timeout retry_count : Z) (retry_delay : float).

(** When every attempt fails, the worker is the attempts one after the
    other and then the snapshot and the sentinels. *)
Lemma worker_exhausted :
  always_fails env certificate_id timeout retry_count retry_delay ->
  fetch_certificate_data env certificate_id timeout retry_count retry_delay
  = (flat_map (fun k => fst (fetch_attempt (attempts env k) certificate_id
                               timeout retry_count retry_delay k))
              (attempt_numbers retry_count)
     ++ fst (save_debug_snapshot (snapshot env) certificate_id timeout ;;
             ret (Some (certificate_id, SENTINEL, SENTINEL))),
     snd (save_debug_snapshot (snapshot env) certificate_id timeout ;;
          ret (Some (certificate_id, SENTINEL, SENTINEL)))).
Proof. intros H. apply for_each_all_next. exact H. Qed.

Lemma fallback_fst :
  fst (save_debug_snapshot (snapshot env) certificate_id timeout ;;
       ret (Some (certificate_id, SENTINEL, SENTINEL)))
  = fst (save_debug_snapshot (snapshot env) certificate_id timeout).
Proof.
  rewrite bind_fst.
  destruct (snd (save_debug_snapshot _ _ _)); simpl; now rewrite app_nil_r.
Qed.

Lemma fallback_snd :
  snapshot_returns (snapshot env) certificate_id timeout ->
  snd (save_debug_snapshot (snapshot env) certificate_id timeout ;;
       ret (Some (certificate_id, SENTINEL, SENTINEL)))
  = Return (Some (certificate_id, SENTINEL, SENTINEL)).
Proof. rewrite bind_snd. now intros ->. Qed.

(** The worker returns nothing but triples that carry its identifier. *)
Lemma worker_value (v : option result) :
  snd (fetch_certificate_data env certificate_id timeout retry_count retry_delay)
  = Return v ->
  exists name grade, v = Some (certificate_id, name, grade).
Proof.
  intros H. apply for_each_return in H. destruct H as [[k [_ Hk]] | H].
  - apply attempt_value in Hk. destruct Hk as [rn [rg [_ [_ ->]]]]. eauto.
  - rewrite bind_snd in H.
    destruct (snd (save_debug_snapshot _ _ _)); [| discriminate].
    injection H as <-. eauto.
Qed.

Lemma worker_returns :
  item_guarded env retry_count ->
  exists v,
    snd (fetch_certificate_data env certificate_id timeout retry_count retry_delay)
    = Return v.
Proof.
  intros [Hp Hs]. apply for_each_returns.
  - intros k Hk. apply attempt_returns. now apply Hp.
  - exists (Some (certificate_id, SENTINEL, SENTINEL)).
    rewrite bind_snd.
    now rewrite (snapshot_guarded_returns certificate_id timeout _ Hs).
Qed.

Lemma worker_attempts_made :
  always_fails env certificate_id timeout retry_count retry_delay ->
  attempts_made
    (fst (fetch_certificate_data env certificate_id timeout retry_count retry_delay))
  = attempt_numbers retry_count.
Proof.
  intros H. rewrite (worker_exhausted H). cbn [fst].
  unfold attempts_made. rewrite flat_map_app.
  rewrite (flat_map_loop _ _ (fun k => [k])).
  - rewrite flat_map_singleton, fallback_fst.
    destruct (snapshot_trace certificate_id timeout (snapshot env)) as [E _].
    unfold attempts_made in E. rewrite E. apply app_nil_r.
  - intros k _.
    now destruct (attempt_trace certificate_id timeout retry_count retry_delay
                                (attempts env k) k) as [E _].
Qed.


End Worker.

Lemma worker_snapshots (env : item_env) (certificate_id : str)
    (timeout retry_count : Z) (retry_delay : float) :
  always_fails env certificate_id timeout retry_count retry_delay ->
  snapshots_begun
    (fst (fetch_certificate_data env certificate_id timeout retry_count retry_delay))
  = 1%nat
  /\ (snapshot_returns (snapshot env) certificate_id timeout ->
      snapshot_gotos
        (fst (fetch_certificate_data env certificate_id timeout retry_count retry_delay))
      = [(cert_url certificate_id, timeout)]).
Proof.
  intros H. rewrite (worker_exhausted _ _ _ _ _ H). cbn [fst].
  rewrite fallback_fst. split.
  - rewrite snapshots_begun_app, snapshots_begun_loop.
    + now destruct (snapshot_trace certificate_id timeout (snapshot env))
        as [_ [_ E]].
    + intros k _.
      now destruct (attempt_trace certificate_id timeout retry_count retry_delay
                                  (attempts env k) k) as [_ [E _]].
  - intros R. unfold snapshot_gotos. rewrite flat_map_app.
    rewrite (flat_map_loop _ _ (fun _ => [])).
    + replace (flat_map (fun _ : Z => []) (attempt_numbers retry_count))
        with (@nil (str * Z)) by (induction (attempt_numbers retry_count); auto).
      apply (snapshot_goto _ _ _ R).
    + intros k _.
      now destruct (attempt_trace certificate_id timeout retry_count retry_delay
                                  (attempts env k) k) as [_ [_ E]].
Qed.

Lemma timeout_page_fails (certificate_id : str) (timeout retry_count : Z)
    (retry_delay : float) (k : Z) :
  attempt_fails timeout_page certificate_id timeout retry_count retry_delay k.
Proof.
  unfold attempt_fails, fetch_attempt, attempt_body, backoff_delay.
  destruct (1 <? k); [destruct (Py.times retry_delay k) |]; reflexivity.
Qed.

(** What becomes of an attempt, by what its [try] block ends in: a caught
    failure is logged and the loop goes on, another failure leaves the
    attempt, and the two texts are returned normalised. *)
Lemma attempt_outcome (pe : page_env) (certificate_id : str)
    (timeout retry_count : Z) (retry_delay : float) (k : Z) :
  new_page_r pe = None -> stealth_r pe = None -> close_finally_r pe = None ->
  match try_outcome pe retry_delay k with
  | Raise e =>
      if is_Exception e
      then snd (fetch_attempt pe certificate_id timeout retry_count retry_delay k)
           = Return Next
           /\ In (failure_log certificate_id k e)
                 (fst (fetch_attempt pe certificate_id timeout retry_count
                                     retry_delay k))
      else snd (fetch_attempt pe certificate_id timeout retry_count retry_delay k)
           = Raise e
  | Return (raw_name, raw_grade) =>
      snd (fetch_attempt pe certificate_id timeout retry_count retry_delay k)
      = Return (Returned (Some (certificate_id,
                                Py.join [Py.space] (Py.split raw_name),
                                Py.strip raw_grade)))
  end.
Proof.
  unfold try_outcome, failure_log. open_attempt pe. intros -> -> ->.
  destruct (1 <? k); run_env;
    try reflexivity;
    (split; [reflexivity | repeat first [left; reflexivity | right]]).
Qed.

Lemma try_outcome_tame (pe : page_env) (retry_delay : float) (k : Z) (e : exn) :
  page_guarded pe = true ->
  try_outcome pe retry_delay k = Raise e -> is_Exception e = true.
Proof.
  unfold page_guarded, try_outcome. destruct pe as [np st bo go se wa nm gr cl cf].
  cbn [new_page_r stealth_r backoff_sleep_r goto_r settle_sleep_r
       wait_for_selector_r name_text_r grade_text_r close_r close_finally_r].
  rewrite !andb_true_iff.
  intros [[[[[[[[[_ _] _] Hbo] Hgo] Hse] Hwa] Hnm] Hgr] Hcl] H.
  destruct (1 <? k); [destruct (Py.times retry_delay k) |];
    repeat match type of H with
           | match ?x with _ => _ end = _ => destruct x
           end;
    try discriminate H; injection H as <-;
    first [assumption | reflexivity].
Qed.

(** What becomes of the snapshot routine, by what its [try] block ends
    in. *)
Lemma snapshot_outcome (se : snapshot_env) (certificate_id : str) (timeout : Z) :
  snap_new_page_r se = None -> snap_stealth_r se = None ->
  snap_makedirs_r se = None -> snap_close_r se = None ->
  match snapshot_try_outcome se with
  | Raise e =>
      if is_Exception e
      then snapshot_returns se certificate_id timeout
           /\ In (EvLog ERROR (LogSnapshotFailed certificate_id e))
                 (fst (save_debug_snapshot se certificate_id timeout))
      else snd (save_debug_snapshot se certificate_id timeout) = Raise e
  | Return content =>
      snapshot_returns se certificate_id timeout
      /\ In (EvLog INFO (LogSnapshotSaved certificate_id))
            (fst (save_debug_snapshot se certificate_id timeout))
      /\ files_written (fst (save_debug_snapshot se certificate_id timeout))
         = [(snapshot_path certificate_id, content)]
  end.
Proof.
  unfold snapshot_try_outcome. open_snapshot se. intros -> -> -> ->.
  run_env; try reflexivity;
    (split; [reflexivity |]);
    try (split; [| reflexivity]);
    repeat first [left; reflexivity | right].
Qed.

Lemma snapshot_try_outcome_tame (se : snapshot_env) (e : exn) :
  snapshot_guarded se = true ->
  snapshot_try_outcome se = Raise e -> is_Exception e = true.
Proof.
  unfold snapshot_guarded, snapshot_try_outcome.
  destruct se as [np st md go sl co wr cl].
  cbn [snap_new_page_r snap_stealth_r snap_makedirs_r snap_goto_r snap_sleep_r
       snap_content_r snap_write_r snap_close_r].
  rewrite !andb_true_iff.
  intros [[[[[[[_ _] _] _] Hgo] Hsl] Hco] Hwr] H.
  repeat match type of H with
         | match ?x with _ => _ end = _ => destruct x
         end;
    try discriminate H; injection H as <-; assumption.
Qed.



(* ================================================================== *)
(** * Properties of the worker *)

(** C2, as the code has it: when the fetch of an identifier fails on every
    one of its [retry_count + 1] attempts, the snapshot routine is run
    exactly once, after the last attempt, for the same identifier and with
    the same timeout: the trace of the worker is that of the attempts, which
    holds no snapshot activity, followed by that of the routine.  The worker
    then ends as the routine ends: it returns the sentinel triple
    [(id, "Error", "Error")] when the routine comes back, which it does
    whenever the calls outside its [try] block succeed, whatever fails
    inside; and what the routine raises leaves the worker. *)
Theorem exhausted_fetch_runs_one_snapshot (env : item_env) (certificate_id : str)
    (timeout retry_count : Z) (retry_delay : float) :
  always_fails env certificate_id timeout retry_count retry_delay ->
  (exists tr,
     fst (fetch_certificate_data env certificate_id timeout retry_count retry_delay)
     = tr ++ fst (save_debug_snapshot (snapshot env) certificate_id timeout)
     /\ snapshots_begun tr = 0%nat
     /\ snapshot_gotos tr = []
     /\ files_written tr = [])
  /\ snapshots_begun
       (fst (fetch_certificate_data env certificate_id timeout retry_count retry_delay))
     = 1%nat
  /\ snd (fetch_certificate_data env certificate_id timeout retry_count retry_delay)
     = match snd (save_debug_snapshot (snapshot env) certificate_id timeout) with
       | Return _ => Return (Some (certificate_id, SENTINEL, SENTINEL))
       | Raise e => Raise e
       end
  /\ (snapshot_guarded (snapshot env) = true ->
      snd (fetch_certificate_data env certificate_id timeout retry_count retry_delay)
      = Return (Some (certificate_id, SENTINEL, SENTINEL)))
  /\ (snapshot_returns (snapshot env) certificate_id timeout ->
      snapshot_gotos
        (fst (fetch_certificate_data env certificate_id timeout retry_count retry_delay))
      = [(cert_url certificate_id, timeout)]).
Proof.
  intros F.
  destruct (worker_snapshots _ _ _ _ _ F) as [B G].
  assert (R : snd (fetch_certificate_data env certificate_id timeout
                     retry_count retry_delay)
              = match snd (save_debug_snapshot (snapshot env) certificate_id
                             timeout) with
                | Return _ => Return (Some (certificate_id, SENTINEL, SENTINEL))
                | Raise e => Raise e
                end).
  { rewrite (worker_exhausted _ _ _ _ _ F). cbn [snd]. now rewrite bind_snd. }
  split; [| split; [exact B | split; [exact R | split; [| exact G]]]].
  - exists (flat_map (fun k => fst (fetch_attempt (attempts env k) certificate_id
                                      timeout retry_count retry_delay k))
                     (attempt_numbers retry_count)).
    split; [| split; [| split]].
    + rewrite (worker_exhausted _ _ _ _ _ F). cbn [fst]. now rewrite fallback_fst.
    + apply snapshots_begun_loop. intros k _.
      now destruct (attempt_trace certificate_id timeout retry_count retry_delay
                                  (attempts env k) k) as [_ [E _]].
    + unfold snapshot_gotos. rewrite (flat_map_loop _ _ (fun _ => [])).
      * apply flat_map_none.
      * intros k _.
        now destruct (attempt_trace certificate_id timeout retry_count retry_delay
                                    (attempts env k) k) as [_ [_ E]].
    + unfold files_written. rewrite (flat_map_loop _ _ (fun _ => [])).
      * apply flat_map_none.
      * intros k _. apply attempt_no_files.
  - intros S. rewrite R.
    now rewrite (snapshot_guarded_returns certificate_id timeout _ S).
Qed.

Lemma exhausted_fetch_runs_one_snapshot_witness :
  always_fails {| attempts := fun _ => timeout_page; snapshot := unwritable_snapshot |}
               (lit "A2") 15000 1 DEFAULT_RETRY_DELAY
  /\ snapshot_guarded unwritable_snapshot = true
  /\ snd (fetch_certificate_data
            {| attempts := fun _ => timeout_page; snapshot := unwritable_snapshot |}
            (lit "A2") 15000 1 DEFAULT_RETRY_DELAY)
     = Return (Some (lit "A2", SENTINEL, SENTINEL)).
Proof.
  assert (F : always_fails
                {| attempts := fun _ => timeout_page; snapshot := unwritable_snapshot |}
                (lit "A2") 15000 1 DEFAULT_RETRY_DELAY)
    by (intros k _; apply timeout_page_fails).
  assert (S : snapshot_guarded unwritable_snapshot = true) by reflexivity.
  split; [exact F | split; [exact S |]].
  exact (proj1 (proj2 (proj2 (proj2
           (exhausted_fetch_runs_one_snapshot _ (lit "A2") 15000 1
              DEFAULT_RETRY_DELAY F)))) S).
Defined.

(** C2, as the claim has it, fails: every attempt fails, the snapshot
    routine cannot create its directory, and the worker ends in that
    failure, with no Result. *)
Lemma snapshot_failure_leaves_no_result :
  always_fails {| attempts := fun _ => timeout_page; snapshot := no_directory_snapshot |}
               (lit "A2") 15000 1 DEFAULT_RETRY_DELAY
  /\ snd (fetch_certificate_data
            {| attempts := fun _ => timeout_page; snapshot := no_directory_snapshot |}
            (lit "A2") 15000 1 DEFAULT_RETRY_DELAY)
     = Raise (OtherError "Permission denied").
Proof.
  split; [intros k _; apply timeout_page_fails | reflexivity].
Qed.

(** C5: attempts are numbered from 1; after a failed attempt [k] the
    attempt [k + 1] is made exactly when [k <= retry_count]; so, for
    [retry_count >= 0], an identifier that always fails is fetched exactly
    [retry_count + 1] times. *)
Theorem always_failing_attempt_count (env : item_env) (certificate_id : str)
    (timeout retry_count : Z) (retry_delay : float) :
  0 <= retry_count ->
  always_fails env certificate_id timeout retry_count retry_delay ->
  Z.of_nat (List.length (attempts_made
     (fst (fetch_certificate_data env certificate_id timeout retry_count retry_delay))))
  = retry_count + 1
  /\ hd 0 (attempts_made
       (fst (fetch_certificate_data env certificate_id timeout retry_count retry_delay)))
     = 1
  /\ attempts_made
       (fst (fetch_certificate_data env certificate_id timeout retry_count retry_delay))
     = map Z.of_nat (seq 1 (Z.to_nat (retry_count + 1)))
  /\ forall k,
       In k (attempts_made
         (fst (fetch_certificate_data env certificate_id timeout
               retry_count retry_delay))) ->
       (In (k + 1) (attempts_made
          (fst (fetch_certificate_data env certificate_id timeout retry_count retry_delay)))
        <-> k <= retry_count).
Proof.
  intros Hrc F. rewrite (worker_attempts_made _ _ _ _ _ F).
  repeat split.
  - rewrite attempt_numbers_eq, length_map, length_seq. lia.
  - now rewrite attempt_numbers_cons.
  - apply attempt_numbers_eq.
  - rewrite attempt_numbers_in. lia.
  - rewrite attempt_numbers_in in *. lia.
Qed.

Lemma always_failing_attempt_count_witness :
  0 <= 3
  /\ always_fails failing_item (lit "A2") 15000 3 DEFAULT_RETRY_DELAY
  /\ Z.of_nat (List.length (attempts_made
       (fst (fetch_certificate_data failing_item (lit "A2") 15000 3 DEFAULT_RETRY_DELAY))))
     = 3 + 1.
Proof.
  assert (F : always_fails failing_item (lit "A2") 15000 3 DEFAULT_RETRY_DELAY)
    by (intros k _; apply timeout_page_fails).
  split; [lia | split; [exact F |]].
  exact (proj1 (always_failing_attempt_count failing_item (lit "A2") 15000 3
        DEFAULT_RETRY_DELAY
                  ltac:(lia) F)).
Defined.




(** C3, as the code has it: when the calls outside the [try] blocks succeed
    (opening a page, creating the snapshot directory, the close in
    [finally]) and the calls inside them fail with [Exception]s only, then
    an attempt whose [try] block meets a failure logs it (a timeout as a
    warning, anything else as an error) and ends without raising, so that
    the loop goes on, and an attempt that meets none returns the normalised
    texts; the snapshot routine comes back, having logged the failure of
    its [try] block or saved the file; the worker returns a Result; and it
    returns the sentinels when every attempt has met a failure. *)
Theorem guarded_failures_stay_inside (env : item_env) (certificate_id : str)
    (timeout retry_count : Z) (retry_delay : float) :
  item_guarded env retry_count ->
  (forall k, In k (attempt_numbers retry_count) ->
     match try_outcome (attempts env k) retry_delay k with
     | Raise e =>
         snd (fetch_attempt (attempts env k) certificate_id timeout
                            retry_count retry_delay k) = Return Next
         /\ In (failure_log certificate_id k e)
               (fst (fetch_attempt (attempts env k) certificate_id timeout
                                   retry_count retry_delay k))
     | Return (raw_name, raw_grade) =>
         snd (fetch_attempt (attempts env k) certificate_id timeout
                            retry_count retry_delay k)
         = Return (Returned (Some (certificate_id,
                                   Py.join [Py.space] (Py.split raw_name),
                                   Py.strip raw_grade)))
     end)
  /\ (snapshot_returns (snapshot env) certificate_id timeout
      /\ match snapshot_try_outcome (snapshot env) with
         | Raise e =>
             In (EvLog ERROR (LogSnapshotFailed certificate_id e))
                (fst (save_debug_snapshot (snapshot env) certificate_id timeout))
         | Return content =>
             In (EvLog INFO (LogSnapshotSaved certificate_id))
                (fst (save_debug_snapshot (snapshot env) certificate_id timeout))
             /\ files_written
                  (fst (save_debug_snapshot (snapshot env) certificate_id timeout))
                = [(snapshot_path certificate_id, content)]
         end)
  /\ (exists r,
        snd (fetch_certificate_data env certificate_id timeout retry_count retry_delay)
        = Return (Some r))
  /\ ((forall k, In k (attempt_numbers retry_count) ->
         exists e, try_outcome (attempts env k) retry_delay k = Raise e) ->
      snd (fetch_certificate_data env certificate_id timeout retry_count retry_delay)
      = Return (Some (certificate_id, SENTINEL, SENTINEL))).
Proof.
  intros G.
  assert (A : forall k, In k (attempt_numbers retry_count) ->
            match try_outcome (attempts env k) retry_delay k with
            | Raise e =>
                snd (fetch_attempt (attempts env k) certificate_id timeout
                                   retry_count retry_delay k) = Return Next
                /\ In (failure_log certificate_id k e)
                      (fst (fetch_attempt (attempts env k) certificate_id timeout
                                          retry_count retry_delay k))
            | Return (raw_name, raw_grade) =>
                snd (fetch_attempt (attempts env k) certificate_id timeout
                                   retry_count retry_delay k)
                = Return (Returned (Some (certificate_id,
                                          Py.join [Py.space] (Py.split raw_name),
                                          Py.strip raw_grade)))
            end).
  { intros k Hk. pose proof (proj1 G k Hk) as P.
    pose proof (try_outcome_tame (attempts env k) retry_delay k) as T.
    assert (U : new_page_r (attempts env k) = None
                /\ stealth_r (attempts env k) = None
                /\ close_finally_r (attempts env k) = None).
    { unfold page_guarded in P. rewrite !andb_true_iff in P.
      destruct P as [[[[[[[[[Hn Hs] Hc] _] _] _] _] _] _] _].
      destruct (new_page_r (attempts env k)), (stealth_r (attempts env k)),
        (close_finally_r (attempts env k)); try discriminate. now repeat split. }
    destruct U as [Un [Us Uc]].
    pose proof (attempt_outcome (attempts env k) certificate_id timeout
                  retry_count retry_delay k Un Us Uc) as O.
    destruct (try_outcome (attempts env k) retry_delay k) as [[rn rg] | e];
      [exact O |].
    now rewrite (T e P eq_refl) in O. }
  split; [exact A | split; [| split]].
  - pose proof (proj2 G) as P.
    pose proof (snapshot_try_outcome_tame (snapshot env)) as T.
    assert (U : snap_new_page_r (snapshot env) = None
                /\ snap_stealth_r (snapshot env) = None
                /\ snap_makedirs_r (snapshot env) = None
                /\ snap_close_r (snapshot env) = None).
    { unfold snapshot_guarded in P. rewrite !andb_true_iff in P.
      destruct P as [[[[[[[Hn Hs] Hm] Hc] _] _] _] _].
      destruct (snap_new_page_r (snapshot env)), (snap_stealth_r (snapshot env)),
        (snap_makedirs_r (snapshot env)), (snap_close_r (snapshot env));
        try discriminate. now repeat split. }
    destruct U as [Un [Us [Um Uc]]].
    pose proof (snapshot_outcome (snapshot env) certificate_id timeout
                  Un Us Um Uc) as O.
    split; [now apply snapshot_guarded_returns |].
    destruct (snapshot_try_outcome (snapshot env)) as [content | e].
    + exact (proj2 O).
    + rewrite (T e P eq_refl) in O. exact (proj2 O).
  - destruct (worker_returns _ certificate_id timeout _ retry_delay G) as [v Hv].
    destruct (worker_value _ _ _ _ _ _ Hv) as [name [grade ->]]. eauto.
  - intros Hall.
    assert (F : always_fails env certificate_id timeout retry_count retry_delay).
    { intros k Hk. specialize (A k Hk). destruct (Hall k Hk) as [e He].
      rewrite He in A. exact (proj1 A). }
    rewrite (worker_exhausted _ _ _ _ _ F). cbn [snd]. apply fallback_snd.
    apply snapshot_guarded_returns. exact (proj2 G).
Qed.

Lemma guarded_failures_stay_inside_witness :
  item_guarded failing_item 3
  /\ (forall k, In k (attempt_numbers 3) ->
        exists e, try_outcome (attempts failing_item k) DEFAULT_RETRY_DELAY k = Raise e)
  /\ snd (fetch_certificate_data failing_item (lit "A2") 15000 3 DEFAULT_RETRY_DELAY)
     = Return (Some (lit "A2", SENTINEL, SENTINEL)).
Proof.
  assert (G : item_guarded failing_item 3)
    by (split; [intros k _; reflexivity | reflexivity]).
  assert (A : forall k, In k (attempt_numbers 3) ->
            exists e, try_outcome (attempts failing_item k) DEFAULT_RETRY_DELAY k
                      = Raise e).
  { intros k Hk. unfold try_outcome. cbn [attempts failing_item].
    destruct (1 <? k); [destruct (Py.times DEFAULT_RETRY_DELAY k) |];
      eexists; reflexivity. }
  split; [exact G | split; [exact A |]].
  exact (proj2 (proj2 (proj2 (guarded_failures_stay_inside failing_item (lit "A2")
                                15000 3 DEFAULT_RETRY_DELAY G))) A).
Defined.

(** C3, as the claim has it, fails: the page of an attempt is opened
    before the [try] statement, so when the browser refuses to open it the
    failure leaves the worker, which returns no Result. *)
Lemma page_failure_escapes_worker :
  new_page_r (attempts unreachable_item 1) = Some (OtherError "Target closed")
  /\ snd (fetch_certificate_data unreachable_item (lit "A1") 15000 3 DEFAULT_RETRY_DELAY)
     = Raise (OtherError "Target closed").
Proof. split; reflexivity. Qed.

(** C9: when attempt [k] is the first to succeed, the worker returns the
    identifier with the name text of that attempt's page collapsed (the
    same words, single U+0020 between them, no whitespace around) and with
    its grade text trimmed of the whitespace around it. *)
Theorem extraction_normalises_texts (env : item_env) (certificate_id : str)
    (timeout retry_count : Z) (retry_delay : float) (k : Z) (v : option result) :
  1 <= k <= retry_count + 1 ->
  (forall j, 1 <= j < k ->
     attempt_fails (attempts env j) certificate_id timeout retry_count retry_delay j) ->
  snd (fetch_attempt (attempts env k) certificate_id timeout retry_count retry_delay k)
  = Return (Returned v) ->
  exists raw_name raw_grade name grade,
    name_text_r (attempts env k) = Return (Some raw_name)
    /\ grade_text_r (attempts env k) = Return (Some raw_grade)
    /\ snd (fetch_certificate_data env certificate_id timeout retry_count retry_delay)
       = Return (Some (certificate_id, name, grade))
    /\ collapsed raw_name name
    /\ trimmed raw_grade grade.
Proof.
  intros Hk Hfail Hok.
  destruct (attempt_numbers_split retry_count k Hk) as [pre [post [E Hpre]]].
  destruct (attempt_value _ _ _ _ _ _ _ Hok) as [rn [rg [Hn [Hg ->]]]].
  exists rn, rg, (Py.join [Py.space] (Py.split rn)), (Py.strip rg).
  split; [exact Hn | split; [exact Hg | split; [| split]]].
  - unfold fetch_certificate_data. rewrite E.
    apply for_each_first_return; [| exact Hok].
    intros j Hj. apply Hfail. now apply Hpre.
  - apply collapse_collapsed.
  - apply strip_trimmed.
Qed.

Lemma extraction_normalises_texts_witness :
  1 <= 2 <= 3 + 1
  /\ (forall j, 1 <= j < 2 ->
        attempt_fails (attempts (flaky_item (lit "  Pikachu   V ") (lit " 10 ")) j)
                      (lit "A1") 15000 3 DEFAULT_RETRY_DELAY j)
  /\ snd (fetch_attempt (attempts (flaky_item (lit "  Pikachu   V ") (lit " 10 ")) 2)
                        (lit "A1") 15000 3 DEFAULT_RETRY_DELAY 2)
     = Return (Returned (Some (lit "A1", lit "Pikachu V", lit "10")))
  /\ exists raw_name raw_grade name grade,
       name_text_r (attempts (flaky_item (lit "  Pikachu   V ") (lit " 10 ")) 2)
       = Return (Some raw_name)
       /\ grade_text_r (attempts (flaky_item (lit "  Pikachu   V ") (lit " 10 ")) 2)
          = Return (Some raw_grade)
       /\ snd (fetch_certificate_data (flaky_item (lit "  Pikachu   V ") (lit " 10 "))
                 (lit "A1") 15000 3 DEFAULT_RETRY_DELAY)
          = Return (Some (lit "A1", name, grade))
       /\ collapsed raw_name name
       /\ trimmed raw_grade grade.
Proof.
  assert (H1 : 1 <= 2 <= 3 + 1) by lia.
  assert (H2 : forall j, 1 <= j < 2 ->
            attempt_fails (attempts (flaky_item (lit "  Pikachu   V ") (lit " 10 ")) j)
                          (lit "A1") 15000 3 DEFAULT_RETRY_DELAY j).
  { intros j Hj. replace j with 1 by lia. reflexivity. }
  assert (H3 : snd (fetch_attempt
                      (attempts (flaky_item (lit "  Pikachu   V ") (lit " 10 ")) 2)
                      (lit "A1") 15000 3 DEFAULT_RETRY_DELAY 2)
               = Return (Returned (Some (lit "A1", lit "Pikachu V", lit "10"))))
    by reflexivity.
  split; [exact H1 | split; [exact H2 | split; [exact H3 |]]].
  exact (extraction_normalises_texts _ _ _ _ _ _ _ H1 H2 H3).
Defined.

(** C10: although its annotation allows [None], the worker never returns
    it: whatever it returns is a triple whose first component is the
    identifier it was given; and it does return, with fetched fields or with
    the sentinels, in every environment in which the calls outside its
    [try] blocks succeed and the ones inside fail with [Exception]s only. *)
Theorem worker_result_carries_id (env : item_env) (certificate_id : str)
    (timeout retry_count : Z) (retry_delay : float) :
  snd (fetch_certificate_data env certificate_id timeout retry_count retry_delay)
  <> Return None
  /\ (forall v,
        snd (fetch_certificate_data env certificate_id timeout retry_count retry_delay)
        = Return v ->
        exists name grade, v = Some (certificate_id, name, grade))
  /\ (item_guarded env retry_count ->
      exists name grade,
        snd (fetch_certificate_data env certificate_id timeout retry_count retry_delay)
        = Return (Some (certificate_id, name, grade))).
Proof.
  split; [| split].
  - intros H. apply worker_value in H. destruct H as [n [g H]]. discriminate.
  - apply worker_value.
  - intros G.
    destruct (worker_returns _ certificate_id timeout _ retry_delay G) as [v Hv].
    destruct (worker_value _ _ _ _ _ _ Hv) as [name [grade ->]]. eauto.
Qed.

Lemma worker_result_carries_id_witness :
  item_guarded (ok_item (lit "Pikachu V") (lit "10")) 3
  /\ exists name grade,
       snd (fetch_certificate_data (ok_item (lit "Pikachu V") (lit "10"))
              (lit "A1") 15000 3 DEFAULT_RETRY_DELAY)
       = Return (Some (lit "A1", name, grade)).
Proof.
  assert (G : item_guarded (ok_item (lit "Pikachu V") (lit "10")) 3)
    by (split; [intros k _; reflexivity | reflexivity]).
  split; [exact G |].
  exact (proj2 (proj2 (worker_result_carries_id _ (lit "A1") 15000 3
        DEFAULT_RETRY_DELAY)) G).
Defined.

(* ================================================================== *)
(** * Windows *)

Lemma enumerate_from_snd {A} (l : list A) (a : nat) :
  map snd (combine (seq a (List.length l)) l) = l.
Proof.
  revert a. induction l as [| x l IH]; intros a; [reflexivity |].
  simpl. now rewrite IH.
Qed.

Lemma enumerate_ids {A} (l : list A) : map snd (enumerate l) = l.
Proof. apply enumerate_from_snd. Qed.

Section Window.

Variables (be : batch_env) (timeout retry_count : Z)
          (retry_delay rate_limit : float).

(** The tasks the dispatch loop hands to [gather], when it gets there. *)
Lemma create_tasks_value (items : list (nat * str)) :
  forall tasks tasks',
    snd (create_tasks be items timeout retry_count retry_delay rate_limit tasks)
    = Return tasks' ->
    tasks'
    = tasks
      ++ map (fun p => (fst p,
                        fetch_certificate_data (item be (fst p)) (snd p)
                                               timeout retry_count retry_delay))
             items.
Proof.
  induction items as [| [i id] items IH]; intros tasks tasks' H.
  - simpl in H. injection H as <-. now rewrite app_nil_r.
  - cbn [create_tasks] in H. rewrite !bind_snd in H. revert H.
    match goal with
    | |- match ?x with _ => _ end = _ -> _ => destruct x
    end; cbn [call snd]; [| discriminate].
    intros H. apply IH in H. rewrite H, <- app_assoc. reflexivity.
Qed.

(** The dispatch loop when none of its sleeps is interrupted. *)
Lemma create_tasks_run (items : list (nat * str)) :
  (positive rate_limit = true -> forall i, pace_sleep_r be i = None) ->
  forall tasks,
    create_tasks be items timeout retry_count retry_delay rate_limit tasks
    = (flat_map (fun p => (if (0 <? fst p)%nat && positive rate_limit
                           then [EvSleep Pace (FloatSeconds rate_limit)] else [])
                          ++ [EvCreateTask (fst p) (snd p)])
                items,
       Return (tasks
               ++ map (fun p => (fst p,
                                 fetch_certificate_data (item be (fst p)) (snd p)
                                   timeout retry_count retry_delay))
                      items)).
Proof.
  intros Hs. induction items as [| [i id] items IH]; intros tasks.
  - simpl. now rewrite app_nil_r.
  - cbn [create_tasks flat_map map]. rewrite IH. cbn [fst snd].
    destruct ((0 <? i)%nat && positive rate_limit) eqn:E.
    + apply andb_true_iff in E. rewrite (Hs (proj2 E) i).
      simpl. now rewrite <- app_assoc.
    + simpl. now rewrite <- app_assoc.
Qed.

End Window.

Lemma gather_value {A} (first : list nat -> nat) (tasks : list (nat * M A))
    (l : list A) :
  snd (gather first tasks) = Return l ->
  map (fun t => snd (snd t)) tasks = map Return l.
Proof.
  unfold gather. cbn [snd].
  destruct (raised tasks) as [| [i e] rest] eqn:R.
  - intros H. injection H as <-. clear first.
    induction tasks as [| [i [t [a | e]]] tasks IH]; [reflexivity | |].
    + cbn [raised returned map snd] in *. f_equal. now apply IH.
    + discriminate R.
  - destruct (find _ _); discriminate.
Qed.

Lemma gather_returns {A} (first : list nat -> nat) (tasks : list (nat * M A)) :
  (forall t, In t tasks -> exists a, snd (snd t) = Return a) ->
  exists l, snd (gather first tasks) = Return l.
Proof.
  intros H. unfold gather. cbn [snd].
  replace (raised tasks) with (@nil (nat * exn)); [eauto |].
  induction tasks as [| [i [t r]] tasks IH]; [reflexivity |].
  destruct (H _ (or_introl eq_refl)) as [a Ha]. cbn [snd] in Ha. subst r.
  cbn [raised]. apply IH. intros t' Ht. apply H. now right.
Qed.

Lemma task_events_only_tasks {A} (tasks : list (nat * M A)) :
  forallb (fun e => match e with EvTask _ _ => true | _ => false end)
          (task_events tasks) = true.
Proof.
  unfold task_events.
  induction tasks as [| [i [t r]] tasks IH]; [reflexivity |].
  cbn [flat_map fst snd]. rewrite forallb_app, IH, andb_true_r.
  induction t as [| e t IHt]; [reflexivity | exact IHt].
Qed.

(** [gather] takes no part in the dispatch. *)
Lemma gather_dispatch_view {A} (first : list nat -> nat)
    (tasks : list (nat * M A)) :
  dispatch_view (fst (gather first tasks)) = [].
Proof.
  unfold gather. cbn [fst].
  pose proof (task_events_only_tasks tasks) as H.
  unfold dispatch_view.
  induction (task_events tasks) as [| e t IH]; [reflexivity |].
  cbn [forallb] in H. apply andb_true_iff in H. destruct H as [He Ht].
  destruct e; try discriminate He. cbn [filter]. now apply IH.
Qed.

Lemma dispatch_view_app (t1 t2 : trace) :
  dispatch_view (t1 ++ t2) = dispatch_view t1 ++ dispatch_view t2.
Proof. apply filter_app. Qed.

(** The values of a window carry the identifiers of the window, in order. *)
Lemma batch_ids (be : batch_env) (certificate_ids : list str)
    (timeout retry_count : Z) (retry_delay rate_limit : float)
    (rs : list (option result)) :
  snd (process_certificate_batch be certificate_ids timeout retry_count
                                 retry_delay rate_limit) = Return rs ->
  map value_id rs = map Some certificate_ids.
Proof.
  unfold process_certificate_batch. rewrite bind_snd.
  destruct (snd (create_tasks _ _ _ _ _ _ _)) as [tasks |] eqn:E; [| discriminate].
  apply create_tasks_value in E. cbn [app] in E. subst tasks.
  intros H. apply gather_value in H. rewrite map_map in H. cbn [snd] in H.
  rewrite <- (enumerate_ids certificate_ids).
  revert rs H. induction (enumerate certificate_ids) as [| [i id] items IH];
    intros rs H; destruct rs as [| r rs]; try discriminate; [reflexivity |].
  cbn [map fst snd] in *. injection H as Hr Hrs.
  apply worker_value in Hr. destruct Hr as [n [g ->]].
  cbn. f_equal. now apply IH.
Qed.

(** A window returns when nothing escapes its workers and its sleeps. *)
Lemma batch_returns (be : batch_env) (certificate_ids : list str)
    (timeout retry_count : Z) (retry_delay rate_limit : float) :
  (forall j, pace_sleep_r be j = None) ->
  (forall j, item_guarded (item be j) retry_count) ->
  exists rs,
    snd (process_certificate_batch be certificate_ids timeout retry_count
                                   retry_delay rate_limit) = Return rs.
Proof.
  intros Hs Hg. unfold process_certificate_batch.
  rewrite bind_snd, create_tasks_run by (intros _; exact Hs).
  cbn [snd app]. apply gather_returns.
  intros t Ht. apply in_map_iff in Ht. destruct Ht as [[i id] [<- _]].
  cbn [fst snd]. apply worker_returns. apply Hg.
Qed.

Lemma batch_dispatch_view (be : batch_env) (certificate_ids : list str)
    (timeout retry_count : Z) (retry_delay rate_limit : float) :
  (positive rate_limit = true -> forall i, pace_sleep_r be i = None) ->
  dispatch_view (fst (process_certificate_batch be certificate_ids timeout
                        retry_count retry_delay rate_limit))
  = flat_map (fun p => (if (0 <? fst p)%nat && positive rate_limit
                        then [EvSleep Pace (FloatSeconds rate_limit)] else [])
                       ++ [EvCreateTask (fst p) (snd p)])
             (enumerate certificate_ids).
Proof.
  intros Hs. unfold process_certificate_batch.
  rewrite bind_fst, create_tasks_run by exact Hs. cbn [fst snd].
  rewrite dispatch_view_app, gather_dispatch_view, app_nil_r.
  induction (enumerate certificate_ids) as [| [i id] items IH]; [reflexivity |].
  cbn [flat_map fst snd]. rewrite dispatch_view_app, IH. f_equal.
  destruct ((0 <? i)%nat && positive rate_limit); reflexivity.
Qed.

(* ================================================================== *)
(** * The partition into windows *)

Lemma slice_chunk {A} (l : list A) (lo c : Z) :
  0 <= lo -> 0 < c ->
  Py.slice l lo (lo + c) = firstn (Z.to_nat c) (skipn (Z.to_nat lo) l).
Proof.
  intros Hlo Hc. unfold Py.slice, Py.clamp.
  replace (lo <? 0) with false by (symmetry; apply Z.ltb_ge; lia).
  replace (lo + c <? 0) with false by (symmetry; apply Z.ltb_ge; lia).
  destruct (Z_lt_le_dec lo (Z.of_nat (List.length l))) as [Hin | Hout].
  - rewrite (Z.min_l lo) by lia.
    destruct (Z_le_gt_dec (lo + c) (Z.of_nat (List.length l))) as [Hfit | Hcut].
    + rewrite Z.min_l by lia. f_equal. lia.
    + rewrite Z.min_r by lia.
      rewrite !firstn_all2; [reflexivity | |]; rewrite length_skipn; lia.
  - rewrite (Z.min_r lo) by lia. rewrite Nat2Z.id.
    rewrite skipn_all, (skipn_all2 (n := Z.to_nat lo)) by lia.
    now rewrite !firstn_nil.
Qed.

Lemma concat_chunks {A} (c : nat) :
  (0 < c)%nat ->
  forall (m : nat) (l : list A),
    (List.length l <= m * c)%nat ->
    List.concat (map (fun k => firstn c (skipn (k * c) l)) (seq 0 m)) = l.
Proof.
  intros Hc. induction m as [| m IH]; intros l Hl.
  - destruct l; [reflexivity | simpl in Hl; lia].
  - rewrite <- cons_seq, <- seq_shift, map_cons, map_map. cbn [List.concat].
    rewrite (map_ext _ (fun k => firstn c (skipn (k * c) (skipn c l)))).
    + rewrite IH by (rewrite length_skipn; lia).
      apply firstn_skipn.
    + intros k. rewrite skipn_skipn. do 2 f_equal. lia.
Qed.

(** The windows, one after the other, are the list of identifiers. *)
Lemma windows_cover (ids : list str) (c : Z) (offsets : list Z) :
  0 < c ->
  Py.range 0 (Z.of_nat (List.length ids)) c = Some offsets ->
  List.concat (map (fun i => Py.slice ids i (i + c)) offsets) = ids.
Proof.
  intros Hc. unfold Py.range.
  replace (c =? 0) with false by (symmetry; apply Z.eqb_neq; lia).
  intros H. injection H as <-. rewrite map_map.
  rewrite (map_ext _ (fun k => firstn (Z.to_nat c) (skipn (k * Z.to_nat c) ids))).
  - apply concat_chunks; [lia |].
    unfold Py.range_len.
    replace (0 <? c) with true by (symmetry; apply Z.ltb_lt; lia).
    destruct (0 <? Z.of_nat (List.length ids)) eqn:E.
    + apply Z.ltb_lt in E.
      pose proof (Z.mul_succ_div_gt (Z.of_nat (List.length ids) - 0 - 1) c Hc).
      pose proof (Z.div_pos (Z.of_nat (List.length ids) - 0 - 1) c
                    ltac:(lia) Hc).
      nia.
    + apply Z.ltb_ge in E. lia.
  - intros k. rewrite slice_chunk by nia. do 2 f_equal. nia.
Qed.

Section Windows.

Variables (w : world) (a : args) (certificate_ids : list str).

Lemma run_windows_ids (offsets : list Z) :
  forall acc rs,
    snd (run_windows w a certificate_ids offsets acc) = Return rs ->
    map value_id rs
    = map value_id acc
      ++ map Some (List.concat (map (fun i => Py.slice certificate_ids i
                                           (i + concurrency a)) offsets)).
Proof.
  induction offsets as [| i offsets IH]; intros acc rs H.
  - simpl in H. injection H as <-. simpl. now rewrite app_nil_r.
  - cbn [run_windows] in H. rewrite bind_snd in H.
    destruct (snd (process_certificate_batch _ _ _ _ _ _)) as [results |] eqn:E;
      [| discriminate].
    apply batch_ids in E. apply IH in H.
    rewrite H, map_app, E. cbn [map List.concat].
    now rewrite map_app, app_assoc.
Qed.

Lemma run_windows_returns (offsets : list Z) :
  (forall i, (forall j, pace_sleep_r (window_env w i) j = None)
             /\ forall j, item_guarded (item (window_env w i) j) (retries a)) ->
  forall acc, exists rs, snd (run_windows w a certificate_ids offsets acc) = Return rs.
Proof.
  intros G. induction offsets as [| i offsets IH]; intros acc.
  - now exists acc.
  - cbn [run_windows]. rewrite bind_snd.
    destruct (batch_returns (window_env w i)
                (Py.slice certificate_ids i (i + concurrency a))
                (timeout a) (retries a) (delay a) (rate_limit a)
                (proj1 (G i)) (proj2 (G i))) as [results ->].
    apply IH.
Qed.

Lemma fetch_phase_ids (rs : list (option result)) :
  0 < concurrency a ->
  snd (fetch_phase w a certificate_ids) = Return rs ->
  map value_id rs = map Some certificate_ids.
Proof.
  intros Hc. unfold fetch_phase. rewrite !bind_snd.
  destruct (snd (perform EvLaunch (launch_r w))); cbv iota; [| intro; discriminate].
  destruct (Py.range 0 (Z.of_nat (List.length certificate_ids)) (concurrency a))
    as [offsets |] eqn:R; cbv iota; [| intro; discriminate].
  destruct (snd (run_windows w a certificate_ids offsets [])) as [all |] eqn:E;
    cbv iota; [| intro; discriminate].
  rewrite bind_snd.
  destruct (snd (perform EvBrowserClose (browser_close_r w))); cbv iota;
    [| intro; discriminate].
  cbn [ret snd]. intros H. injection H as <-.
  apply run_windows_ids in E. rewrite E. cbn [map app].
  now rewrite (windows_cover _ _ _ Hc R).
Qed.

Lemma fetch_phase_returns :
  0 < concurrency a -> world_guarded w a ->
  exists rs, snd (fetch_phase w a certificate_ids) = Return rs.
Proof.
  intros Hc [Hl [Hb G]]. unfold fetch_phase. rewrite !bind_snd, Hl, Hb.
  cbn [perform call snd].
  unfold Py.range.
  replace (concurrency a =? 0) with false by (symmetry; apply Z.eqb_neq; lia).
  match goal with
  | |- context [run_windows w a certificate_ids ?o []] =>
      destruct (run_windows_returns o G []) as [rs ->]
  end.
  now exists rs.
Qed.

End Windows.




(** C6: in a window of three identifiers with the default rate limit of
    1.0 second, the dispatch loop creates the three coroutine objects, with
    a pacing sleep before the second and before the third, and no worker
    has run by then.  The first action of the first worker, the opening of
    its page, comes after both sleeps, and from there on the trace holds
    actions of workers only: the item at index 0 is delayed by two seconds,
    and no sleep separates the fetch of one item from that of the next. *)
Lemma pacing_sleeps_precede_every_fetch :
  firstn 5 (fst (process_certificate_batch
                   (ok_batch (lit "Pikachu V") (lit "10"))
                   [lit "A1"; lit "A2"; lit "A3"]
                   15000 3 DEFAULT_RETRY_DELAY DEFAULT_RATE_LIMIT))
  = [EvCreateTask 0 (lit "A1");
     EvSleep Pace (FloatSeconds DEFAULT_RATE_LIMIT);
     EvCreateTask 1 (lit "A2");
     EvSleep Pace (FloatSeconds DEFAULT_RATE_LIMIT);
     EvCreateTask 2 (lit "A3")]
  /\ nth_error (fst (process_certificate_batch
                       (ok_batch (lit "Pikachu V") (lit "10"))
                       [lit "A1"; lit "A2"; lit "A3"]
                       15000 3 DEFAULT_RETRY_DELAY DEFAULT_RATE_LIMIT)) 5
     = Some (EvTask 0 (EvNewPage (AttemptPage 1)))
  /\ forallb is_task
       (skipn 5 (fst (process_certificate_batch
                        (ok_batch (lit "Pikachu V") (lit "10"))
                        [lit "A1"; lit "A2"; lit "A3"]
                        15000 3 DEFAULT_RETRY_DELAY DEFAULT_RATE_LIMIT)))
     = true
  /\ snd (process_certificate_batch
            (ok_batch (lit "Pikachu V") (lit "10"))
            [lit "A1"; lit "A2"; lit "A3"]
            15000 3 DEFAULT_RETRY_DELAY DEFAULT_RATE_LIMIT)
     = Return [Some (lit "A1", lit "Pikachu V", lit "10");
               Some (lit "A2", lit "Pikachu V", lit "10");
               Some (lit "A3", lit "Pikachu V", lit "10")].
Proof.
  repeat split; vm_compute; reflexivity.
Qed.

(** The scenario of the specification: the failed identifier keeps its
    place, marked with the sentinels. *)
Example scenario_results :
  snd (fetch_phase scenario_world scenario_args [lit "A1"; lit "A2"; lit "A3"])
  = Return [Some (lit "A1", lit "Pikachu V", lit "10");
            Some (lit "A2", lit "Error", lit "Error");
            Some (lit "A3", lit "Pikachu V", lit "10")].
Proof. reflexivity. Qed.

(* ================================================================== *)
(** * The driver *)

Lemma no_report_app (t1 t2 : trace) :
  no_report t1 -> no_report t2 -> no_report (t1 ++ t2).
Proof. unfold no_report. rewrite forallb_app. now intros -> ->. Qed.

Lemma no_report_bind {A B} (m : M A) (f : A -> M B) :
  no_report (fst m) -> (forall x, no_report (fst (f x))) ->
  no_report (fst (bind m f)).
Proof.
  intros Hm Hf. rewrite bind_fst. apply no_report_app; [exact Hm |].
  destruct (snd m); [apply Hf | reflexivity].
Qed.

Lemma no_report_gather {A} (first : list nat -> nat)
    (tasks : list (nat * M A)) :
  no_report (fst (gather first tasks)).
Proof.
  unfold gather, no_report. cbn [fst].
  pose proof (task_events_only_tasks tasks) as H.
  induction (task_events tasks) as [| e t IH]; [reflexivity |].
  cbn [forallb] in H. apply andb_true_iff in H. destruct H as [He Ht].
  destruct e; try discriminate He. cbn [forallb is_report negb andb].
  now apply IH.
Qed.

Lemma no_report_create_tasks (be : batch_env) (items : list (nat * str))
    (timeout retry_count : Z) (retry_delay rate_limit : float) :
  forall tasks,
    no_report (fst (create_tasks be items timeout retry_count retry_delay
                                 rate_limit tasks)).
Proof.
  induction items as [| [i id] items IH]; intros tasks; [reflexivity |].
  cbn [create_tasks]. apply no_report_bind.
  - destruct ((0 <? i)%nat && positive rate_limit); reflexivity.
  - intros _. apply no_report_bind; [reflexivity | intros _; apply IH].
Qed.

Lemma no_report_batch (be : batch_env) (certificate_ids : list str)
    (timeout retry_count : Z) (retry_delay rate_limit : float) :
  no_report (fst (process_certificate_batch be certificate_ids timeout
                    retry_count retry_delay rate_limit)).
Proof.
  apply no_report_bind; [apply no_report_create_tasks |].
  intros tasks. apply no_report_gather.
Qed.

Lemma no_report_run_windows (w : world) (a : args) (certificate_ids : list str)
    (offsets : list Z) :
  forall acc, no_report (fst (run_windows w a certificate_ids offsets acc)).
Proof.
  induction offsets as [| i offsets IH]; intros acc; [reflexivity |].
  cbn [run_windows]. apply no_report_bind; [apply no_report_batch |].
  intros results. apply IH.
Qed.

(** The fetch phase leaves the report alone. *)
Lemma no_report_fetch_phase (w : world) (a : args) (certificate_ids : list str) :
  no_report (fst (fetch_phase w a certificate_ids)).
Proof.
  unfold fetch_phase. apply no_report_bind; [reflexivity |].
  intros _. apply no_report_bind.
  - destruct (Py.range _ _ _); [apply no_report_run_windows | reflexivity].
  - intros all. apply no_report_bind; reflexivity.
Qed.






(** With an input that is missing, unreadable or blank, [main] exits with
    status 1 after nothing but the look at the input. *)
Lemma main_stops (w : world) (a : args) :
  input_exists w = false
  \/ (exists e, input_lines w = Raise e /\ is_Exception e = true)
  \/ (exists lines, input_lines w = Return lines /\ forallb blank lines = true) ->
  exists t,
    main w a = (t, Raise (SystemExit 1)) /\ no_fetch_work t /\ no_report t.
Proof.
  intros H.
  unfold main, read_ids, try_except, try_except_finally, call, log, bind,
    ret, raise.
  destruct (input_exists w) eqn:X; cbn [negb];
    [| eexists; repeat split; reflexivity].
  destruct H as [H | [[e [-> He]] | [lines [-> Hb]]]]; [discriminate | |].
  - rewrite He. eexists; repeat split; reflexivity.
  - apply usable_ids_nil_iff in Hb. rewrite Hb. cbn [Py.nonempty negb].
    eexists; repeat split; reflexivity.
Qed.

(** C7: when the input file does not exist, cannot be read, or holds
    nothing but blank lines, the run ends with exit status 1, a non-zero
    status, and its trace holds no fetch work and no access to the report. *)
Theorem unusable_input_stops_the_run (w : world) (a : args) :
  input_exists w = false
  \/ (exists e, input_lines w = Raise e /\ is_Exception e = true)
  \/ (exists lines, input_lines w = Return lines /\ forallb blank lines = true) ->
  snd (run w a) = 1
  /\ snd (run w a) <> 0
  /\ no_fetch_work (fst (run w a))
  /\ no_report (fst (run w a)).
Proof.
  intros H. destruct (main_stops w a H) as [t [E [Hf Hr]]].
  unfold run, script, asyncio_run, try_except, try_except_finally. rewrite E.
  cbn. rewrite app_nil_r. repeat split; try assumption. discriminate.
Qed.

Lemma unusable_input_stops_the_run_witness :
  (input_exists (sample_world (Return [lit "  "; lit ""]) true) = false
   \/ (exists e, input_lines (sample_world (Return [lit "  "; lit ""]) true) = Raise e
                 /\ is_Exception e = true)
   \/ (exists lines,
         input_lines (sample_world (Return [lit "  "; lit ""]) true) = Return lines
         /\ forallb blank lines = true))
  /\ snd (run (sample_world (Return [lit "  "; lit ""]) true) (sample_args 5)) = 1.
Proof.
  assert (H : input_exists (sample_world (Return [lit "  "; lit ""]) true) = false
              \/ (exists e,
                    input_lines (sample_world (Return [lit "  "; lit ""]) true) = Raise e
                    /\ is_Exception e = true)
              \/ (exists lines,
                    input_lines (sample_world (Return [lit "  "; lit ""]) true)
                    = Return lines
                    /\ forallb blank lines = true)).
  { right. right. exists [lit "  "; lit ""]. split; reflexivity. }
  split; [exact H |].
  exact (proj1 (unusable_input_stops_the_run _ (sample_args 5) H)).
Defined.



(* ================================================================== *)
(** * Further properties of an attempt *)

(** X1: once the page of an attempt is open and made stealthy, the last
    thing the attempt does is to close it, whatever happens in between and
    whatever the attempt ends in; when making it stealthy fails, the page is
    never closed and the failure leaves the attempt. *)
Theorem attempt_page_release (pe : page_env) (certificate_id : str)
    (timeout retry_count : Z) (retry_delay : float) (k : Z) :
  new_page_r pe = None ->
  (stealth_r pe = None ->
   last_event (fst (fetch_attempt pe certificate_id timeout retry_count retry_delay k))
   = Some (EvClose (AttemptPage k)))
  /\ (forall e, stealth_r pe = Some e ->
        snd (fetch_attempt pe certificate_id timeout retry_count retry_delay k)
        = Raise e
        /\ closes (AttemptPage k)
             (fst (fetch_attempt pe certificate_id timeout retry_count retry_delay k))
           = 0%nat).
Proof.
  open_attempt pe. intros ->. split.
  - intros ->. destruct (1 <? k); run_env; reflexivity.
  - intros e ->. split; reflexivity.
Qed.

Lemma attempt_page_release_witness :
  new_page_r stealth_fails_page = None
  /\ stealth_r stealth_fails_page = Some (OtherError "Target closed")
  /\ closes (AttemptPage 1)
       (fst (fetch_attempt stealth_fails_page (lit "A1") 15000 3
             DEFAULT_RETRY_DELAY 1)) = 0%nat
  /\ new_page_r timeout_page = None
  /\ stealth_r timeout_page = None
  /\ last_event (fst (fetch_attempt timeout_page (lit "A1") 15000 3 DEFAULT_RETRY_DELAY 1))
     = Some (EvClose (AttemptPage 1)).
Proof.
  assert (N : new_page_r stealth_fails_page = None) by reflexivity.
  assert (S : stealth_r stealth_fails_page = Some (OtherError "Target closed"))
    by reflexivity.
  assert (N' : new_page_r timeout_page = None) by reflexivity.
  assert (S' : stealth_r timeout_page = None) by reflexivity.
  split; [exact N | split; [exact S | split; [| split; [exact N' | split;
    [exact S' |]]]]].
  - exact (proj2 (proj2 (attempt_page_release stealth_fails_page (lit "A1")
                           15000 3 DEFAULT_RETRY_DELAY 1 N) _ S)).
  - exact (proj1 (attempt_page_release timeout_page (lit "A1") 15000 3
        DEFAULT_RETRY_DELAY 1 N') S').
Defined.

(** X2: when both texts are extracted but the close that precedes the
    [return] fails with an [Exception], the attempt ends as a failed one:
    the extracted texts are dropped and the loop goes on; a worker whose
    every attempt ends so returns the sentinels. *)
Theorem close_failure_discards_result (name grade : str) (e : exn)
    (se : snapshot_env) (certificate_id : str)
    (timeout retry_count : Z) (retry_delay : float) :
  is_Exception e = true ->
  (forall k, attempt_fails (close_fails_page name grade e) certificate_id
                           timeout retry_count retry_delay k)
  /\ (snapshot_returns se certificate_id timeout ->
      snd (fetch_certificate_data
             {| attempts := fun _ => close_fails_page name grade e; snapshot := se |}
             certificate_id timeout retry_count retry_delay)
      = Return (Some (certificate_id, SENTINEL, SENTINEL))).
Proof.
  intros He.
  assert (F : forall k, attempt_fails (close_fails_page name grade e)
                          certificate_id timeout retry_count retry_delay k).
  { intros k. unfold attempt_fails, fetch_attempt, attempt_body, backoff_delay.
    destruct (1 <? k); [destruct (Py.times retry_delay k) |];
      destruct e; try discriminate; reflexivity. }
  split; [exact F |].
  intros R. rewrite worker_exhausted by (intros k _; apply F).
  cbn [snd]. now apply fallback_snd.
Qed.

Lemma close_failure_discards_result_witness :
  is_Exception (OtherError "Target closed") = true
  /\ snapshot_returns ok_snapshot (lit "A1") 15000
  /\ snd (fetch_certificate_data
            {| attempts := fun _ => close_fails_page (lit "Pikachu V") (lit "10")
                                      (OtherError "Target closed");
               snapshot := ok_snapshot |}
            (lit "A1") 15000 3 DEFAULT_RETRY_DELAY)
     = Return (Some (lit "A1", SENTINEL, SENTINEL)).
Proof.
  assert (E : is_Exception (OtherError "Target closed") = true) by reflexivity.
  assert (R : snapshot_returns ok_snapshot (lit "A1") 15000) by reflexivity.
  split; [exact E | split; [exact R |]].
  exact (proj2 (close_failure_discards_result (lit "Pikachu V") (lit "10")
                  (OtherError "Target closed") ok_snapshot (lit "A1") 15000 3
                        DEFAULT_RETRY_DELAY E) R).
Defined.

(** X3: when the page loads and the selector is found but a locator yields
    no text ([None]), the attempt fails and the loop goes on; the failure
    is an [AttributeError], logged as an error, unless the attempt is a
    retry whose backoff product cannot be computed, which fails before the
    page is loaded. *)
Theorem missing_text_fails_attempt (pe : page_env) (certificate_id : str)
    (timeout retry_count : Z) (retry_delay : float) (k : Z) :
  reaches_extraction pe = true ->
  close_finally_r pe = None ->
  name_text_r pe = Return None
  \/ (exists raw, name_text_r pe = Return (Some raw))
     /\ grade_text_r pe = Return None ->
  attempt_fails pe certificate_id timeout retry_count retry_delay k
  /\ ((1 < k -> Py.times retry_delay k <> None) ->
      In (EvLog ERROR (LogFetchError certificate_id AttributeError))
         (fst (fetch_attempt pe certificate_id timeout retry_count retry_delay k))).
Proof.
  unfold reaches_extraction. open_attempt pe.
  intros G -> H.
  destruct np, st, bo, go, se, wa; try discriminate G. clear G.
  destruct (1 <? k) eqn:E;
    [apply Z.ltb_lt in E; destruct (Py.times retry_delay k) as [d |] |];
    destruct H as [-> | [[raw ->] ->]];
    cbn -[Py.float_of];
    (split; [reflexivity | intros T; try (now exfalso; apply (T E)); intuition]).
Qed.

Lemma missing_text_fails_attempt_witness :
  reaches_extraction textless_page = true
  /\ close_finally_r textless_page = None
  /\ (1 < 2 -> Py.times DEFAULT_RETRY_DELAY 2 <> None)
  /\ attempt_fails textless_page (lit "A1") 15000 3 DEFAULT_RETRY_DELAY 2
  /\ In (EvLog ERROR (LogFetchError (lit "A1") AttributeError))
        (fst (fetch_attempt textless_page (lit "A1") 15000 3 DEFAULT_RETRY_DELAY 2)).
Proof.
  assert (G : reaches_extraction textless_page = true) by reflexivity.
  assert (C : close_finally_r textless_page = None) by reflexivity.
  assert (T : 1 < 2 -> Py.times DEFAULT_RETRY_DELAY 2 <> None)
    by (intros _; discriminate).
  split; [exact G | split; [exact C | split; [exact T | split]]].
  - exact (proj1 (missing_text_fails_attempt textless_page (lit "A1") 15000 3
                    DEFAULT_RETRY_DELAY 2 G C (or_introl eq_refl))).
  - exact (proj2 (missing_text_fails_attempt textless_page (lit "A1") 15000 3
                    DEFAULT_RETRY_DELAY 2 G C (or_introl eq_refl)) T).
Defined.

(* ================================================================== *)
(** * Further properties of the retry loop *)

(** A loop stops at its first iteration that does not fall through. *)
Lemma for_each_stops {X A} (pre : list X) (x : X) (post : list X)
    (body : X -> M (flow A)) (after : M A) :
  (forall y, In y pre -> snd (body y) = Return Next) ->
  snd (body x) <> Return Next ->
  for_each (pre ++ x :: post) body after
  = (flat_map (fun y => fst (body y)) pre ++ fst (body x),
     match snd (body x) with
     | Return (Returned v) => Return v
     | Return Next => snd after
     | Raise e => Raise e
     end).
Proof.
  intros Hpre Hx. induction pre as [| y pre IH]; simpl.
  - destruct (body x) as [t [[| v] | e]]; simpl in *;
      [congruence | now rewrite app_nil_r | reflexivity].
  - pose proof (Hpre y (or_introl eq_refl)) as Hy.
    destruct (body y) as [t r]. simpl in Hy. subst r. simpl.
    rewrite IH by (intros z Hz; apply Hpre; now right).
    now rewrite app_assoc.
Qed.

Lemma attempt_numbers_prefix (retry_count k : Z) :
  1 <= k <= retry_count + 1 ->
  exists post,
    attempt_numbers retry_count
    = map Z.of_nat (seq 1 (Z.to_nat (k - 1))) ++ k :: post.
Proof.
  intros H. rewrite attempt_numbers_eq.
  set (m := Z.to_nat (retry_count + 1)).
  set (n := Z.to_nat (k - 1)).
  exists (map Z.of_nat (seq (S (S n)) (m - S n))).
  replace m with (n + S (m - S n))%nat by lia.
  rewrite seq_app, map_app. f_equal. cbn [seq map].
  f_equal; [lia | f_equal; f_equal; lia].
Qed.

(** What a worker leaves behind when its loop stops at attempt [k]. *)
Lemma worker_stops_at (env : item_env) (certificate_id : str)
    (timeout retry_count : Z) (retry_delay : float) (k : Z) :
  1 <= k <= retry_count + 1 ->
  (forall j, 1 <= j < k ->
     attempt_fails (attempts env j) certificate_id timeout retry_count retry_delay j) ->
  snd (fetch_attempt (attempts env k) certificate_id timeout retry_count retry_delay k)
  <> Return Next ->
  snd (fetch_certificate_data env certificate_id timeout retry_count retry_delay)
  = match snd (fetch_attempt (attempts env k) certificate_id timeout
                             retry_count retry_delay k) with
    | Return (Returned v) => Return v
    | Return Next => Return None
    | Raise e => Raise e
    end
  /\ attempts_made
       (fst (fetch_certificate_data env certificate_id timeout retry_count retry_delay))
     = map Z.of_nat (seq 1 (Z.to_nat k))
  /\ snapshots_begun
       (fst (fetch_certificate_data env certificate_id timeout retry_count retry_delay))
     = 0%nat
  /\ files_written
       (fst (fetch_certificate_data env certificate_id timeout retry_count retry_delay))
     = [].
Proof.
  intros Hk Hfail Hstop.
  destruct (attempt_numbers_prefix retry_count k Hk) as [post E].
  assert (Hpre : forall j, In j (map Z.of_nat (seq 1 (Z.to_nat (k - 1)))) ->
                   snd (fetch_attempt (attempts env j) certificate_id timeout
                                      retry_count retry_delay j) = Return Next).
  { intros j Hj. apply Hfail. apply in_map_iff in Hj.
    destruct Hj as [i [<- Hi]]. apply in_seq in Hi. lia. }
  unfold fetch_certificate_data. rewrite E.
  rewrite (for_each_stops _ _ _ _ _ Hpre Hstop). cbn [fst snd].
  split; [| split; [| split]].
  - destruct (snd (fetch_attempt _ _ _ _ _ _)) as [[| v] | e];
      [congruence | reflexivity | reflexivity].
  - unfold attempts_made. rewrite flat_map_app.
    rewrite (flat_map_loop _ _ (fun j => [j])).
    + rewrite flat_map_singleton.
      destruct (attempt_trace certificate_id timeout retry_count retry_delay
                              (attempts env k) k) as [A _].
      unfold attempts_made in A. rewrite A.
      replace (Z.to_nat k) with (Z.to_nat (k - 1) + 1)%nat by lia.
      rewrite seq_app, map_app. cbn [seq map]. do 2 f_equal. lia.
    + intros j _.
      now destruct (attempt_trace certificate_id timeout retry_count retry_delay
                                  (attempts env j) j) as [A _].
  - rewrite snapshots_begun_app, snapshots_begun_loop.
    + now destruct (attempt_trace certificate_id timeout retry_count retry_delay
                                  (attempts env k) k) as [_ [B _]].
    + intros j _.
      now destruct (attempt_trace certificate_id timeout retry_count retry_delay
                                  (attempts env j) j) as [_ [B _]].
  - unfold files_written. rewrite flat_map_app.
    rewrite (flat_map_loop _ _ (fun _ => [])).
    + rewrite flat_map_none. apply attempt_no_files.
    + intros j _. apply attempt_no_files.
Qed.

(** X4: an identifier that succeeds at attempt [k] is fetched [k] times and
    no more; the snapshot routine is not entered for it and no file is
    written. *)
Theorem success_ends_the_loop (env : item_env) (certificate_id : str)
    (timeout retry_count : Z) (retry_delay : float) (k : Z) (v : option result) :
  1 <= k <= retry_count + 1 ->
  (forall j, 1 <= j < k ->
     attempt_fails (attempts env j) certificate_id timeout retry_count retry_delay j) ->
  snd (fetch_attempt (attempts env k) certificate_id timeout retry_count retry_delay k)
  = Return (Returned v) ->
  attempts_made
    (fst (fetch_certificate_data env certificate_id timeout retry_count retry_delay))
  = map Z.of_nat (seq 1 (Z.to_nat k))
  /\ snapshots_begun
       (fst (fetch_certificate_data env certificate_id timeout retry_count retry_delay))
     = 0%nat
  /\ files_written
       (fst (fetch_certificate_data env certificate_id timeout retry_count retry_delay))
     = [].
Proof.
  intros Hk Hfail Hok.
  apply (worker_stops_at env certificate_id timeout retry_count retry_delay k Hk Hfail).
  rewrite Hok. discriminate.
Qed.

Lemma success_ends_the_loop_witness :
  1 <= 2 <= 3 + 1
  /\ (forall j, 1 <= j < 2 ->
        attempt_fails (attempts (flaky_item (lit "Pikachu V") (lit "10")) j)
                      (lit "A1") 15000 3 DEFAULT_RETRY_DELAY j)
  /\ snd (fetch_attempt (attempts (flaky_item (lit "Pikachu V") (lit "10")) 2)
                        (lit "A1") 15000 3 DEFAULT_RETRY_DELAY 2)
     = Return (Returned (Some (lit "A1", lit "Pikachu V", lit "10")))
  /\ attempts_made
       (fst (fetch_certificate_data (flaky_item (lit "Pikachu V") (lit "10"))
               (lit "A1") 15000 3 DEFAULT_RETRY_DELAY))
     = [1; 2].
Proof.
  assert (H1 : 1 <= 2 <= 3 + 1) by lia.
  assert (H2 : forall j, 1 <= j < 2 ->
            attempt_fails (attempts (flaky_item (lit "Pikachu V") (lit "10")) j)
                          (lit "A1") 15000 3 DEFAULT_RETRY_DELAY j).
  { intros j Hj. replace j with 1 by lia. reflexivity. }
  assert (H3 : snd (fetch_attempt
                      (attempts (flaky_item (lit "Pikachu V") (lit "10")) 2)
                      (lit "A1") 15000 3 DEFAULT_RETRY_DELAY 2)
               = Return (Returned (Some (lit "A1", lit "Pikachu V", lit "10"))))
    by reflexivity.
  split; [exact H1 | split; [exact H2 | split; [exact H3 |]]].
  exact (proj1 (success_ends_the_loop _ _ _ _ _ _ _ H1 H2 H3)).
Defined.

(** X5: a failure that leaves attempt [k] leaves the worker as it is: no
    further attempt is made, the snapshot routine is not entered, and the
    worker returns no Result. *)
Theorem escaping_failure_ends_the_worker (env : item_env) (certificate_id : str)
    (timeout retry_count : Z) (retry_delay : float) (k : Z) (e : exn) :
  1 <= k <= retry_count + 1 ->
  (forall j, 1 <= j < k ->
     attempt_fails (attempts env j) certificate_id timeout retry_count retry_delay j) ->
  snd (fetch_attempt (attempts env k) certificate_id timeout retry_count retry_delay k)
  = Raise e ->
  snd (fetch_certificate_data env certificate_id timeout retry_count retry_delay)
  = Raise e
  /\ attempts_made
       (fst (fetch_certificate_data env certificate_id timeout retry_count retry_delay))
     = map Z.of_nat (seq 1 (Z.to_nat k))
  /\ snapshots_begun
       (fst (fetch_certificate_data env certificate_id timeout retry_count retry_delay))
     = 0%nat.
Proof.
  intros Hk Hfail Hraise.
  destruct (worker_stops_at env certificate_id timeout retry_count retry_delay k
              Hk Hfail) as [R [A [B _]]]; [rewrite Hraise; discriminate |].
  rewrite Hraise in R. now repeat split.
Qed.

Lemma escaping_failure_ends_the_worker_witness :
  1 <= 1 <= 3 + 1
  /\ snd (fetch_attempt (attempts unreachable_item 1) (lit "A1") 15000 3
        DEFAULT_RETRY_DELAY 1)
     = Raise (OtherError "Target closed")
  /\ attempts_made (fst (fetch_certificate_data unreachable_item (lit "A1") 15000 3
        DEFAULT_RETRY_DELAY))
     = [1]
  /\ snapshots_begun (fst (fetch_certificate_data unreachable_item (lit "A1") 15000 3
        DEFAULT_RETRY_DELAY))
     = 0%nat.
Proof.
  assert (H1 : 1 <= 1 <= 3 + 1) by lia.
  assert (H2 : forall j, 1 <= j < 1 ->
            attempt_fails (attempts unreachable_item j) (lit "A1") 15000 3
                  DEFAULT_RETRY_DELAY j)
    by (intros j Hj; lia).
  assert (H3 : snd (fetch_attempt (attempts unreachable_item 1) (lit "A1") 15000 3
        DEFAULT_RETRY_DELAY 1)
               = Raise (OtherError "Target closed")) by reflexivity.
  split; [exact H1 | split; [exact H3 |]].
  exact (proj2 (escaping_failure_ends_the_worker _ _ _ _ _ _ _ H1 H2 H3)).
Defined.

(** X6: with a retry count below 0 no attempt is made at all: the worker
    goes straight to the snapshot routine and returns the sentinels. *)
Theorem negative_retry_count_fetches_nothing (env : item_env)
    (certificate_id : str) (timeout retry_count : Z) (retry_delay : float) :
  retry_count < 0 ->
  attempts_made
    (fst (fetch_certificate_data env certificate_id timeout retry_count retry_delay))
  = []
  /\ snapshots_begun
       (fst (fetch_certificate_data env certificate_id timeout retry_count retry_delay))
     = 1%nat
  /\ (snapshot_returns (snapshot env) certificate_id timeout ->
      snd (fetch_certificate_data env certificate_id timeout retry_count retry_delay)
      = Return (Some (certificate_id, SENTINEL, SENTINEL))).
Proof.
  intros Hneg.
  assert (F : always_fails env certificate_id timeout retry_count retry_delay).
  { intros k Hk. apply attempt_numbers_in in Hk. lia. }
  assert (E : attempt_numbers retry_count = []).
  { rewrite attempt_numbers_eq.
    now replace (Z.to_nat (retry_count + 1)) with 0%nat by lia. }
  split; [| split].
  - now rewrite worker_attempts_made.
  - now destruct (worker_snapshots _ _ _ _ _ F).
  - intros R. rewrite worker_exhausted by exact F. cbn [snd].
    now apply fallback_snd.
Qed.

Lemma negative_retry_count_fetches_nothing_witness :
  -1 < 0
  /\ attempts_made
       (fst (fetch_certificate_data (ok_item (lit "Pikachu V") (lit "10"))
               (lit "A1") 15000 (-1) DEFAULT_RETRY_DELAY))
     = []
  /\ snd (fetch_certificate_data (ok_item (lit "Pikachu V") (lit "10"))
            (lit "A1") 15000 (-1) DEFAULT_RETRY_DELAY)
     = Return (Some (lit "A1", SENTINEL, SENTINEL)).
Proof.
  assert (H : -1 < 0) by lia.
  split; [exact H | split].
  - exact (proj1 (negative_retry_count_fetches_nothing
                    (ok_item (lit "Pikachu V") (lit "10")) (lit "A1") 15000 (-1)
                          DEFAULT_RETRY_DELAY H)).
  - exact (proj2 (proj2 (negative_retry_count_fetches_nothing
                           (ok_item (lit "Pikachu V") (lit "10")) (lit "A1")
                           15000 (-1) DEFAULT_RETRY_DELAY H)) eq_refl).
Defined.

(* ================================================================== *)
(** * Further properties of the text normalisation *)

Lemma split_from_nonempty (s cur : str) :
  Py.nonempty cur = true -> Py.split_from cur s <> [].
Proof.
  revert cur. induction s as [| c s IH]; intros cur N; cbn [Py.split_from].
  - rewrite N. discriminate.
  - destruct (Py.isspace c); [rewrite N; discriminate | now apply IH].
Qed.

Lemma split_nil_iff (s : str) : Py.split s = [] <-> blank s = true.
Proof.
  unfold Py.split. induction s as [| c s IH]; [now split |].
  cbn [Py.split_from blank forallb Py.nonempty].
  destruct (Py.isspace c); [exact IH |].
  split; [| discriminate].
  intros E. exfalso. now apply (split_from_nonempty s [c]).
Qed.

Lemma lstrip_unpadded (s : str) :
  Py.isspace (hd 0%N s) = false -> Py.lstrip s = s.
Proof. destruct s as [| c s]; [reflexivity |]. simpl. now intros ->. Qed.

Lemma strip_unpadded (s : str) : unpadded s -> Py.strip s = s.
Proof.
  intros [Hh Hl]. unfold Py.strip, Py.rstrip.
  rewrite (lstrip_unpadded s Hh), (lstrip_unpadded (rev s) Hl).
  apply rev_involutive.
Qed.

(** X7: a text made of whitespace only, and no other, gives an empty field:
    the collapsed name is empty exactly when the raw heading is blank, and
    the trimmed grade is empty exactly when the raw grade is blank. *)
Theorem blank_text_gives_empty_field (raw : str) :
  (Py.join [Py.space] (Py.split raw) = [] <-> blank raw = true)
  /\ (Py.strip raw = [] <-> blank raw = true).
Proof.
  split; [| apply strip_nil_iff].
  rewrite <- split_nil_iff. split.
  - intros E. pose proof (split_words raw) as W.
    destruct (Py.split raw) as [| w ws]; [reflexivity |].
    inversion W as [| ? ? [Hne _] _]; subst.
    exfalso. now apply (join_nonempty w ws).
  - now intros ->.
Qed.

(** X8: both normalisations are idempotent: collapsing a collapsed name and
    trimming a trimmed grade change nothing. *)
Theorem normalisation_is_idempotent (raw : str) :
  Py.join [Py.space] (Py.split (Py.join [Py.space] (Py.split raw)))
  = Py.join [Py.space] (Py.split raw)
  /\ Py.strip (Py.strip raw) = Py.strip raw.
Proof.
  split.
  - now rewrite split_join by apply split_words.
  - apply strip_unpadded. apply strip_trimmed.
Qed.

(** X9: every identifier read from the input is non-empty and has no
    whitespace around it; there are at most as many as lines; and reading
    the identifiers again as lines gives the same identifiers. *)
Theorem usable_ids_are_clean (lines : list str) :
  Forall (fun id => id <> [] /\ unpadded id) (usable_ids lines)
  /\ (List.length (usable_ids lines) <= List.length lines)%nat
  /\ usable_ids (usable_ids lines) = usable_ids lines.
Proof.
  unfold usable_ids. split; [| split].
  - induction lines as [| l lines IH]; [constructor |].
    cbn [filter]. destruct (Py.nonempty (Py.strip l)) eqn:N; [| exact IH].
    cbn [map]. constructor; [| exact IH].
    split; [| apply strip_trimmed].
    intros E. rewrite E in N. discriminate.
  - rewrite length_map. apply filter_length_le.
  - induction lines as [| l lines IH]; [reflexivity |].
    cbn [filter]. destruct (Py.nonempty (Py.strip l)) eqn:N; [| exact IH].
    cbn [map filter].
    rewrite (strip_unpadded (Py.strip l)) by apply strip_trimmed.
    rewrite N. cbn [map].
    rewrite (strip_unpadded (Py.strip l)) by apply strip_trimmed.
    f_equal. exact IH.
Qed.

(* ================================================================== *)
(** * Further properties of the snapshot routine *)

Lemma not_slash (c : char) (s : str) :
  c <> 47%N ->
  Py.path_join DEBUG_DIR (c :: s) = DEBUG_DIR ++ 47%N :: c :: s.
Proof.
  intros H. destruct c as [| p]; [reflexivity |].
  do 6 (destruct p as [p | p |]; try reflexivity).
  congruence.
Qed.

(** X10: the snapshot of an identifier that does not start with a slash is
    [debug_snapshots/<id>.html]; for an identifier that starts with a slash
    the join drops the directory and the snapshot is [<id>.html], outside
    the debug directory. *)
Theorem snapshot_path_of_identifier (certificate_id : str) :
  (hd 0%N certificate_id <> 47%N ->
   snapshot_path certificate_id
   = lit "debug_snapshots/" ++ certificate_id ++ lit ".html")
  /\ (hd 0%N certificate_id = 47%N ->
      snapshot_path certificate_id = certificate_id ++ lit ".html").
Proof.
  unfold snapshot_path. split; intros H.
  - destruct certificate_id as [| c s]; [reflexivity |].
    cbn [hd] in H. cbn [app]. now rewrite not_slash.
  - destruct certificate_id as [| c s]; [discriminate H |].
    cbn [hd] in H. subst c. reflexivity.
Qed.

Lemma snapshot_path_of_identifier_witness :
  hd 0%N (lit "A1") <> 47%N
  /\ snapshot_path (lit "A1") = lit "debug_snapshots/A1.html"
  /\ hd 0%N (lit "/tmp/A1") = 47%N
  /\ snapshot_path (lit "/tmp/A1") = lit "/tmp/A1.html".
Proof.
  assert (H : hd 0%N (lit "A1") <> 47%N) by discriminate.
  assert (H' : hd 0%N (lit "/tmp/A1") = 47%N) by reflexivity.
  split; [exact H | split; [| split; [exact H' |]]].
  - exact (proj1 (snapshot_path_of_identifier (lit "A1")) H).
  - exact (proj2 (snapshot_path_of_identifier (lit "/tmp/A1")) H').
Defined.

(** X11: the snapshot routine writes at most one file, the snapshot of its
    identifier with the content the page gave; once its page is open and
    stealthy and the directory is there, the last thing it does is to close
    the page; when the directory cannot be created the page is left open
    and the failure leaves the routine. *)
Theorem snapshot_file_and_page (se : snapshot_env) (certificate_id : str)
    (timeout : Z) :
  (files_written (fst (save_debug_snapshot se certificate_id timeout)) = []
   \/ exists content,
        snap_content_r se = Return content
        /\ files_written (fst (save_debug_snapshot se certificate_id timeout))
           = [(snapshot_path certificate_id, content)])
  /\ (snap_new_page_r se = None -> snap_stealth_r se = None ->
      (snap_makedirs_r se = None ->
       last_event (fst (save_debug_snapshot se certificate_id timeout))
       = Some (EvClose SnapshotPage))
      /\ (forall e, snap_makedirs_r se = Some e ->
            snd (save_debug_snapshot se certificate_id timeout) = Raise e
            /\ closes SnapshotPage
                 (fst (save_debug_snapshot se certificate_id timeout)) = 0%nat)).
Proof.
  open_snapshot se. split.
  - run_env; try (left; reflexivity); right; eexists; split; reflexivity.
  - intros -> ->. split.
    + intros ->. run_env; reflexivity.
    + intros e ->. split; reflexivity.
Qed.

Lemma snapshot_file_and_page_witness :
  snap_new_page_r ok_snapshot = None
  /\ snap_stealth_r ok_snapshot = None
  /\ snap_makedirs_r ok_snapshot = None
  /\ last_event (fst (save_debug_snapshot ok_snapshot (lit "A1") 15000))
     = Some (EvClose SnapshotPage).
Proof.
  assert (N : snap_new_page_r ok_snapshot = None) by reflexivity.
  assert (S : snap_stealth_r ok_snapshot = None) by reflexivity.
  assert (D : snap_makedirs_r ok_snapshot = None) by reflexivity.
  split; [exact N | split; [exact S | split; [exact D |]]].
  exact (proj1 (proj2 (snapshot_file_and_page ok_snapshot (lit "A1") 15000) N S) D).
Defined.

(* ================================================================== *)
(** * Further properties of a window *)

Lemma create_tasks_dispatch_only (be : batch_env) (items : list (nat * str))
    (timeout retry_count : Z) (retry_delay rate_limit : float) :
  forall tasks,
    forallb is_dispatch
      (fst (create_tasks be items timeout retry_count retry_delay rate_limit tasks))
    = true.
Proof.
  induction items as [| [i id] items IH]; intros tasks; [reflexivity |].
  cbn [create_tasks]. rewrite !bind_fst, !forallb_app.
  apply andb_true_iff. split.
  - destruct ((0 <? i)%nat && positive rate_limit); reflexivity.
  - match goal with
    | |- forallb _ (match ?x with _ => _ end) = _ => destruct x
    end; [| reflexivity].
    cbn [call fst snd app forallb is_dispatch andb]. apply IH.
Qed.

Lemma gather_tasks_only {A} (first : list nat -> nat)
    (tasks : list (nat * M A)) :
  forallb is_task (fst (gather first tasks)) = true.
Proof. apply task_events_only_tasks. Qed.

Lemma gather_raises {A} (first : list nat -> nat) (tasks : list (nat * M A))
    (t : nat * M A) (e : exn) :
  In t tasks -> snd (snd t) = Raise e ->
  exists e', snd (gather first tasks) = Raise e'.
Proof.
  intros Hin He. unfold gather. cbn [snd].
  destruct (raised tasks) as [| [i e1] rest] eqn:R.
  - exfalso. clear first.
    induction tasks as [| [j [t' [a | e2]]] tasks IH]; [contradiction | |].
    + destruct Hin as [<- | Hin]; [discriminate He | now apply IH].
    + discriminate R.
  - destruct (find _ _) as [r |]; eauto.
Qed.

(** X12: a window first creates all its tasks, sleeping between the
    creations, and only then do the workers run: in the trace of a window
    every event of the dispatch loop comes before every event of a worker.
    The pacing sleeps therefore come before the first fetch of the window,
    not between its fetches. *)
Theorem workers_run_after_dispatch (be : batch_env) (certificate_ids : list str)
    (timeout retry_count : Z) (retry_delay rate_limit : float) :
  exists t1 t2,
    fst (process_certificate_batch be certificate_ids timeout retry_count
                                   retry_delay rate_limit) = t1 ++ t2
    /\ forallb is_dispatch t1 = true
    /\ forallb is_task t2 = true.
Proof.
  unfold process_certificate_batch. rewrite bind_fst.
  eexists. eexists. split; [reflexivity | split].
  - apply create_tasks_dispatch_only.
  - destruct (snd (create_tasks _ _ _ _ _ _ _)); [apply gather_tasks_only | reflexivity].
Qed.

(** X13: when a worker of a window raises, the window raises too, and the
    values the other workers of the window returned are lost. *)
Theorem one_raising_worker_fails_the_window (be : batch_env)
    (certificate_ids : list str) (timeout retry_count : Z)
    (retry_delay rate_limit : float) (j : nat) (id : str) (e : exn) :
  (forall i, pace_sleep_r be i = None) ->
  In (j, id) (enumerate certificate_ids) ->
  snd (fetch_certificate_data (item be j) id timeout retry_count retry_delay)
  = Raise e ->
  exists e',
    snd (process_certificate_batch be certificate_ids timeout retry_count
                                   retry_delay rate_limit) = Raise e'.
Proof.
  intros Hs Hin He. unfold process_certificate_batch.
  rewrite bind_snd, create_tasks_run by (intros _; exact Hs).
  cbn [snd app].
  apply (gather_raises _ _ (j, fetch_certificate_data (item be j) id timeout
                                retry_count retry_delay) e); [| exact He].
  apply in_map_iff. now exists (j, id).
Qed.

Lemma one_raising_worker_fails_the_window_witness :
  (forall i, pace_sleep_r second_unreachable_batch i = None)
  /\ In (1%nat, lit "A2") (enumerate [lit "A1"; lit "A2"])
  /\ exists e',
       snd (process_certificate_batch second_unreachable_batch
              [lit "A1"; lit "A2"] 15000 3 DEFAULT_RETRY_DELAY DEFAULT_RATE_LIMIT)
       = Raise e'.
Proof.
  assert (S : forall i, pace_sleep_r second_unreachable_batch i = None)
    by reflexivity.
  assert (I : In (1%nat, lit "A2") (enumerate [lit "A1"; lit "A2"]))
    by (right; left; reflexivity).
  split; [exact S | split; [exact I |]].
  exact (one_raising_worker_fails_the_window second_unreachable_batch _ 15000 3
           DEFAULT_RETRY_DELAY DEFAULT_RATE_LIMIT 1%nat (lit "A2")
           (OtherError "Target closed") S I eq_refl).
Defined.

(** X14: for a positive window size [c] the identifiers are cut into
    [ceil(n / c)] windows, and every window holds at least one and at most
    [c] identifiers. *)
Theorem window_sizes (ids : list str) (c : Z) (offsets : list Z) :
  0 < c ->
  Py.range 0 (Z.of_nat (List.length ids)) c = Some offsets ->
  Forall (fun i => (1 <= List.length (Py.slice ids i (i + c)) <= Z.to_nat c)%nat)
         offsets
  /\ Z.of_nat (List.length offsets) = (Z.of_nat (List.length ids) + c - 1) / c.
Proof.
  intros Hc. unfold Py.range, Py.range_len.
  replace (c =? 0) with false by (symmetry; apply Z.eqb_neq; lia).
  replace (0 <? c) with true by (symmetry; apply Z.ltb_lt; lia).
  set (n := Z.of_nat (List.length ids)).
  intros H. injection H as <-.
  destruct (0 <? n) eqn:E.
  - apply Z.ltb_lt in E.
    pose proof (Z.div_pos (n - 0 - 1) c ltac:(lia) Hc) as Hq.
    pose proof (Z.mul_div_le (n - 0 - 1) c Hc) as Hm.
    split.
    + apply Forall_forall. intros i Hi. apply in_map_iff in Hi.
      destruct Hi as [k [<- Hk]]. apply in_seq in Hk.
      rewrite slice_chunk by nia.
      rewrite length_firstn, length_skipn. subst n. nia.
    + rewrite length_map, length_seq.
      replace (n + c - 1) with (n - 0 - 1 + 1 * c) by lia.
      rewrite Z.div_add by lia. lia.
  - apply Z.ltb_ge in E. split; [constructor |].
    replace n with 0 by lia. cbn [List.length map seq].
    rewrite Z.div_small; lia.
Qed.

Lemma window_sizes_witness :
  0 < 2
  /\ Py.range 0 (Z.of_nat (List.length [lit "A1"; lit "A2"; lit "A3"])) 2
     = Some [0; 2]
  /\ Z.of_nat (List.length [0; 2])
     = (Z.of_nat (List.length [lit "A1"; lit "A2"; lit "A3"]) + 2 - 1) / 2.
Proof.
  assert (C : 0 < 2) by lia.
  assert (R : Py.range 0 (Z.of_nat (List.length [lit "A1"; lit "A2"; lit "A3"])) 2
              = Some [0; 2]) by reflexivity.
  split; [exact C | split; [exact R |]].
  exact (proj2 (window_sizes [lit "A1"; lit "A2"; lit "A3"] 2 [0; 2] C R)).
Defined.

(* ================================================================== *)
(** * Further properties of the driver *)

Lemma report_events_app (t1 t2 : trace) :
  report_events (t1 ++ t2) = report_events t1 ++ report_events t2.
Proof. apply filter_app. Qed.

Lemma no_report_events (t : trace) : no_report t -> report_events t = [].
Proof.
  unfold no_report, report_events. induction t as [| e t IH]; [reflexivity |].
  cbn [forallb filter]. destruct (is_report e); [discriminate | exact IH].
Qed.

(** [main] once the input has given identifiers. *)
Lemma main_after_input (w : world) (a : args) (lines : list str) :
  input_exists w = true ->
  input_lines w = Return lines ->
  usable_ids lines <> [] ->
  main w a
  = (EvPathExists (input a) :: EvReadInput (input a)
     :: EvLog INFO (LogLoaded (List.length (usable_ids lines)))
     :: fst (all_results <- fetch_phase w a (usable_ids lines) ;;
             write_report w a all_results),
     snd (all_results <- fetch_phase w a (usable_ids lines) ;;
          write_report w a all_results)).
Proof.
  intros Hx Hl Hne.
  unfold main, read_ids, try_except, try_except_finally.
  rewrite Hx, Hl. cbn [call bind ret negb app fst snd].
  destruct (usable_ids lines) as [| id ids] eqn:E; [congruence |].
  cbn [Py.nonempty negb log bind app].
  destruct (all_results <- fetch_phase w a (id :: ids);; write_report w a all_results)
    as [t r].
  reflexivity.
Qed.

Lemma run_of_return (w : world) (a : args) (t : trace) :
  main w a = (t, Return tt) -> run w a = (t, 0).
Proof.
  intros E. unfold run, script, asyncio_run, try_except, try_except_finally.
  rewrite E. cbn. now rewrite app_nil_r.
Qed.

Lemma run_of_exception (w : world) (a : args) (t : trace) (e : exn) :
  main w a = (t, Raise e) -> is_Exception e = true ->
  run w a = (t ++ [EvLog ERROR (LogFatal e)], 1).
Proof.
  intros E He. unfold run, script, asyncio_run, try_except, try_except_finally.
  rewrite E. destruct e; try discriminate He; reflexivity.
Qed.

Lemma run_of_exit (w : world) (a : args) (t : trace) :
  main w a = (t, Raise (SystemExit 1)) -> run w a = (t, 1).
Proof.
  intros E. unfold run, script, asyncio_run, try_except, try_except_finally.
  rewrite E. cbn. now rewrite app_nil_r.
Qed.

(** X15: when the input gives identifiers, the window size is positive,
    nothing leaves a worker and the report can be written, the run exits
    with status 0 and touches the report exactly twice: it opens the output
    file and writes the header with one row per identifier of the input, in
    the order of the input. *)
Theorem report_has_a_row_per_identifier (w : world) (a : args) (lines : list str) :
  input_exists w = true ->
  input_lines w = Return lines ->
  usable_ids lines <> [] ->
  0 < concurrency a ->
  world_guarded w a ->
  open_report_r w = None ->
  write_rows_r w = None ->
  snd (run w a) = 0
  /\ exists rows,
       report_events (fst (run w a))
       = [EvOpenReport (output_file w a); EvWriteRows REPORT_HEADER rows]
       /\ map value_id rows = map Some (usable_ids lines).
Proof.
  intros Hx Hl Hne Hc G Ho Hw.
  destruct (fetch_phase_returns w a (usable_ids lines) Hc G) as [rows Hr].
  pose proof (fetch_phase_ids w a _ rows Hc Hr) as Hids.
  pose proof (no_report_fetch_phase w a (usable_ids lines)) as Q.
  pose proof (main_after_input w a lines Hx Hl Hne) as E.
  rewrite bind_fst, bind_snd, Hr in E.
  unfold write_report, try_except, try_except_finally in E.
  rewrite Ho, Hw in E. cbn [perform call log bind ret app fst snd] in E.
  rewrite (run_of_return _ _ _ E). cbn [fst snd].
  split; [reflexivity |]. exists rows. split; [| exact Hids].
  change (report_events
            ([EvPathExists (input a); EvReadInput (input a);
              EvLog INFO (LogLoaded (List.length (usable_ids lines)))]
             ++ fst (fetch_phase w a (usable_ids lines))
             ++ [EvOpenReport (output_file w a);
                 EvWriteRows REPORT_HEADER rows;
                 EvLog INFO (LogSaved (output_file w a))])
          = [EvOpenReport (output_file w a); EvWriteRows REPORT_HEADER rows]).
  rewrite !report_events_app, (no_report_events _ Q). reflexivity.
Qed.

Lemma report_has_a_row_per_identifier_witness :
  input_exists scenario_world = true
  /\ input_lines scenario_world = Return [lit "A1"; lit "A2"; lit "A3"]
  /\ usable_ids [lit "A1"; lit "A2"; lit "A3"] <> []
  /\ 0 < concurrency scenario_args
  /\ world_guarded scenario_world scenario_args
  /\ open_report_r scenario_world = None
  /\ write_rows_r scenario_world = None
  /\ snd (run scenario_world scenario_args) = 0.
Proof.
  assert (Hx : input_exists scenario_world = true) by reflexivity.
  assert (Hl : input_lines scenario_world = Return [lit "A1"; lit "A2"; lit "A3"])
    by reflexivity.
  assert (Hne : usable_ids [lit "A1"; lit "A2"; lit "A3"] <> []) by discriminate.
  assert (Hc : 0 < concurrency scenario_args) by reflexivity.
  assert (G : world_guarded scenario_world scenario_args).
  { split; [reflexivity | split; [reflexivity |]].
    intros i. split; [reflexivity |].
    intros j. simpl. destruct ((i =? 0) && (j =? 1)%nat);
      (split; [intros k _; reflexivity | reflexivity]). }
  assert (Ho : open_report_r scenario_world = None) by reflexivity.
  assert (Hw : write_rows_r scenario_world = None) by reflexivity.
  repeat (split; [assumption |]).
  exact (proj1 (report_has_a_row_per_identifier scenario_world scenario_args _
                  Hx Hl Hne Hc G Ho Hw)).
Defined.

(** X16: with a window size of 0 the run launches the browser, fails on the
    [ValueError] of [range], logs it as fatal and exits with status 1: no
    identifier is fetched, the browser is not closed and no report is
    written. *)
Theorem zero_concurrency_is_fatal (w : world) (a : args) (lines : list str) :
  input_exists w = true ->
  input_lines w = Return lines ->
  usable_ids lines <> [] ->
  launch_r w = None ->
  concurrency a = 0 ->
  run w a
  = ([EvPathExists (input a); EvReadInput (input a);
      EvLog INFO (LogLoaded (List.length (usable_ids lines)));
      EvLaunch; EvLog ERROR (LogFatal ValueError)],
     1).
Proof.
  intros Hx Hl Hne Hla Hc.
  pose proof (main_after_input w a lines Hx Hl Hne) as E.
  unfold fetch_phase in E. rewrite Hla, Hc in E.
  unfold Py.range in E. cbn in E.
  now rewrite (run_of_exception _ _ _ _ E eq_refl).
Qed.

Lemma zero_concurrency_is_fatal_witness :
  input_exists scenario_world = true
  /\ input_lines scenario_world = Return [lit "A1"; lit "A2"; lit "A3"]
  /\ usable_ids [lit "A1"; lit "A2"; lit "A3"] <> []
  /\ launch_r scenario_world = None
  /\ concurrency (sample_args 0) = 0
  /\ snd (run scenario_world (sample_args 0)) = 1.
Proof.
  assert (Hx : input_exists scenario_world = true) by reflexivity.
  assert (Hl : input_lines scenario_world = Return [lit "A1"; lit "A2"; lit "A3"])
    by reflexivity.
  assert (Hne : usable_ids [lit "A1"; lit "A2"; lit "A3"] <> []) by discriminate.
  assert (Hla : launch_r scenario_world = None) by reflexivity.
  assert (Hc : concurrency (sample_args 0) = 0) by reflexivity.
  repeat (split; [assumption |]).
  exact (f_equal snd (zero_concurrency_is_fatal scenario_world (sample_args 0) _
                        Hx Hl Hne Hla Hc)).
Defined.

(** X17: with a window size below 0 there is no window: the run fetches
    nothing, writes a report that holds the header and no row, and exits
    with status 0. *)
Theorem negative_concurrency_writes_empty_report (w : world) (a : args)
    (lines : list str) :
  input_exists w = true ->
  input_lines w = Return lines ->
  usable_ids lines <> [] ->
  launch_r w = None ->
  browser_close_r w = None ->
  open_report_r w = None ->
  write_rows_r w = None ->
  concurrency a < 0 ->
  run w a
  = ([EvPathExists (input a); EvReadInput (input a);
      EvLog INFO (LogLoaded (List.length (usable_ids lines)));
      EvLaunch; EvBrowserClose;
      EvOpenReport (output_file w a); EvWriteRows REPORT_HEADER [];
      EvLog INFO (LogSaved (output_file w a))],
     0).
Proof.
  intros Hx Hl Hne Hla Hb Ho Hw Hc.
  pose proof (main_after_input w a lines Hx Hl Hne) as E.
  unfold fetch_phase, write_report, try_except, try_except_finally in E.
  rewrite Hla, Hb, Ho, Hw in E.
  unfold Py.range, Py.range_len in E.
  replace (concurrency a =? 0) with false in E
    by (symmetry; apply Z.eqb_neq; lia).
  replace (0 <? concurrency a) with false in E
    by (symmetry; apply Z.ltb_ge; lia).
  replace (Z.of_nat (List.length (usable_ids lines)) <? 0) with false in E
    by (symmetry; apply Z.ltb_ge; lia).
  cbn in E. now rewrite (run_of_return _ _ _ E).
Qed.

Lemma negative_concurrency_writes_empty_report_witness :
  input_exists scenario_world = true
  /\ input_lines scenario_world = Return [lit "A1"; lit "A2"; lit "A3"]
  /\ usable_ids [lit "A1"; lit "A2"; lit "A3"] <> []
  /\ launch_r scenario_world = None
  /\ browser_close_r scenario_world = None
  /\ open_report_r scenario_world = None
  /\ write_rows_r scenario_world = None
  /\ concurrency (sample_args (-1)) < 0
  /\ snd (run scenario_world (sample_args (-1))) = 0.
Proof.
  assert (Hx : input_exists scenario_world = true) by reflexivity.
  assert (Hl : input_lines scenario_world = Return [lit "A1"; lit "A2"; lit "A3"])
    by reflexivity.
  assert (Hne : usable_ids [lit "A1"; lit "A2"; lit "A3"] <> []) by discriminate.
  assert (Hla : launch_r scenario_world = None) by reflexivity.
  assert (Hb : browser_close_r scenario_world = None) by reflexivity.
  assert (Ho : open_report_r scenario_world = None) by reflexivity.
  assert (Hw : write_rows_r scenario_world = None) by reflexivity.
  assert (Hc : concurrency (sample_args (-1)) < 0) by reflexivity.
  repeat (split; [assumption |]).
  exact (f_equal snd (negative_concurrency_writes_empty_report scenario_world
                        (sample_args (-1)) _ Hx Hl Hne Hla Hb Ho Hw Hc)).
Defined.

(** X18: when an [Exception] leaves the fetch phase, be it raised by a
    single worker, the run logs it as fatal and exits with status 1; the
    results gathered so far are dropped: the trace holds no access to the
    report. *)
Theorem escaping_failure_aborts_the_run (w : world) (a : args)
    (lines : list str) (e : exn) :
  input_exists w = true ->
  input_lines w = Return lines ->
  usable_ids lines <> [] ->
  snd (fetch_phase w a (usable_ids lines)) = Raise e ->
  is_Exception e = true ->
  snd (run w a) = 1
  /\ last_event (fst (run w a)) = Some (EvLog ERROR (LogFatal e))
  /\ no_report (fst (run w a)).
Proof.
  intros Hx Hl Hne Hr He.
  pose proof (no_report_fetch_phase w a (usable_ids lines)) as Q.
  pose proof (main_after_input w a lines Hx Hl Hne) as E.
  rewrite bind_fst, bind_snd, Hr, app_nil_r in E.
  rewrite (run_of_exception _ _ _ _ E He). cbn [fst snd].
  split; [reflexivity | split].
  - unfold last_event. now rewrite rev_unit.
  - apply no_report_app; [| reflexivity].
    apply (no_report_app [_; _; _]); [reflexivity | exact Q].
Qed.

Lemma escaping_failure_aborts_the_run_witness :
  input_exists unreachable_world = true
  /\ input_lines unreachable_world = Return [lit "A1"]
  /\ usable_ids [lit "A1"] <> []
  /\ snd (fetch_phase unreachable_world (sample_args 5) (usable_ids [lit "A1"]))
     = Raise (OtherError "Target closed")
  /\ is_Exception (OtherError "Target closed") = true
  /\ snd (run unreachable_world (sample_args 5)) = 1.
Proof.
  assert (Hx : input_exists unreachable_world = true) by reflexivity.
  assert (Hl : input_lines unreachable_world = Return [lit "A1"])
    by reflexivity.
  assert (Hne : usable_ids [lit "A1"] <> []) by discriminate.
  assert (Hr : snd (fetch_phase unreachable_world (sample_args 5)
                      (usable_ids [lit "A1"]))
               = Raise (OtherError "Target closed")) by reflexivity.
  assert (He : is_Exception (OtherError "Target closed") = true) by reflexivity.
  repeat (split; [assumption |]).
  exact (proj1 (escaping_failure_aborts_the_run unreachable_world (sample_args 5)
                  _ _ Hx Hl Hne Hr He)).
Defined.

(** X19: when the fetch phase has returned its results but the output file
    cannot be opened or written, the failure is logged and the run exits
    with status 1; when the file cannot be opened no row is written. *)
Theorem unwritable_report_is_fatal (w : world) (a : args) (lines : list str)
    (rows : list (option result)) (e : exn) :
  input_exists w = true ->
  input_lines w = Return lines ->
  usable_ids lines <> [] ->
  snd (fetch_phase w a (usable_ids lines)) = Return rows ->
  is_Exception e = true ->
  (open_report_r w = Some e ->
   snd (run w a) = 1
   /\ last_event (fst (run w a)) = Some (EvLog ERROR (LogWriteFailed e))
   /\ report_events (fst (run w a)) = [EvOpenReport (output_file w a)])
  /\ (open_report_r w = None -> write_rows_r w = Some e ->
      snd (run w a) = 1
      /\ last_event (fst (run w a)) = Some (EvLog ERROR (LogWriteFailed e))).
Proof.
  intros Hx Hl Hne Hr He.
  pose proof (no_report_fetch_phase w a (usable_ids lines)) as Q.
  pose proof (main_after_input w a lines Hx Hl Hne) as E.
  rewrite bind_fst, bind_snd, Hr in E.
  unfold write_report, try_except, try_except_finally in E.
  split.
  - intros Ho. rewrite Ho in E.
    cbn [perform call log bind ret raise app fst snd] in E. rewrite He in E.
    cbn [perform call log bind ret raise app fst snd] in E.
    rewrite (run_of_exit _ _ _ E). cbn [fst snd].
    split; [reflexivity | split].
    + unfold last_event. cbn [rev]. rewrite rev_app_distr. reflexivity.
    + change (report_events
                ([EvPathExists (input a); EvReadInput (input a);
                  EvLog INFO (LogLoaded (List.length (usable_ids lines)))]
                 ++ fst (fetch_phase w a (usable_ids lines))
                 ++ [EvOpenReport (output_file w a);
                     EvLog ERROR (LogWriteFailed e)])
              = [EvOpenReport (output_file w a)]).
      rewrite !report_events_app, (no_report_events _ Q). reflexivity.
  - intros Ho Hw. rewrite Ho, Hw in E.
    cbn [perform call log bind ret raise app fst snd] in E. rewrite He in E.
    cbn [perform call log bind ret raise app fst snd] in E.
    rewrite (run_of_exit _ _ _ E). cbn [fst snd].
    split; [reflexivity |].
    unfold last_event. cbn [rev]. rewrite rev_app_distr. reflexivity.
Qed.

Lemma unwritable_report_is_fatal_witness :
  input_exists unwritable_world = true
  /\ input_lines unwritable_world = Return [lit "A1"]
  /\ usable_ids [lit "A1"] <> []
  /\ snd (fetch_phase unwritable_world (sample_args 5) (usable_ids [lit "A1"]))
     = Return [Some (lit "A1", lit "Pikachu V", lit "10")]
  /\ is_Exception (OtherError "Permission denied") = true
  /\ open_report_r unwritable_world = Some (OtherError "Permission denied")
  /\ snd (run unwritable_world (sample_args 5)) = 1.
Proof.
  assert (Hx : input_exists unwritable_world = true) by reflexivity.
  assert (Hl : input_lines unwritable_world = Return [lit "A1"]) by reflexivity.
  assert (Hne : usable_ids [lit "A1"] <> []) by discriminate.
  assert (Hr : snd (fetch_phase unwritable_world (sample_args 5)
                      (usable_ids [lit "A1"]))
               = Return [Some (lit "A1", lit "Pikachu V", lit "10")])
    by reflexivity.
  assert (He : is_Exception (OtherError "Permission denied") = true)
    by reflexivity.
  assert (Ho : open_report_r unwritable_world
               = Some (OtherError "Permission denied")) by reflexivity.
  repeat (split; [assumption |]).
  exact (proj1 (proj1 (unwritable_report_is_fatal unwritable_world (sample_args 5)
                         _ _ _ Hx Hl Hne Hr He) Ho)).
Defined.

(** X20: an attempt that returns a Result has closed its page twice, once
    before the [return] and once more in the [finally] block. *)
Theorem successful_attempt_closes_twice (pe : page_env) (certificate_id : str)
    (timeout retry_count : Z) (retry_delay : float) (k : Z) (v : option result) :
  snd (fetch_attempt pe certificate_id timeout retry_count retry_delay k)
  = Return (Returned v) ->
  closes (AttemptPage k)
    (fst (fetch_attempt pe certificate_id timeout retry_count retry_delay k))
  = 2%nat.
Proof.
  unfold closes. open_attempt pe. destruct (1 <? k); intros H; run_env;
    rewrite ?Z.eqb_refl; reflexivity.
Qed.

Lemma successful_attempt_closes_twice_witness :
  snd (fetch_attempt (ok_page (lit "Pikachu V") (lit "10")) (lit "A1") 15000 3
        DEFAULT_RETRY_DELAY 1)
  = Return (Returned (Some (lit "A1", lit "Pikachu V", lit "10")))
  /\ closes (AttemptPage 1)
       (fst (fetch_attempt (ok_page (lit "Pikachu V") (lit "10"))
               (lit "A1") 15000 3 DEFAULT_RETRY_DELAY 1))
     = 2%nat.
Proof.
  assert (H : snd (fetch_attempt (ok_page (lit "Pikachu V") (lit "10"))
                     (lit "A1") 15000 3 DEFAULT_RETRY_DELAY 1)
              = Return (Returned (Some (lit "A1", lit "Pikachu V", lit "10"))))
    by reflexivity.
  split; [exact H |].
  exact (successful_attempt_closes_twice _ _ _ _ _ _ _ H).
Defined.
